(** * deepscatter-webgpu: point collection, NDC normalisation and the
      WebGPU renderer variants

    A shallow embedding of
      - [ShallowTable]            (src/unnamed/part_001),
      - the point-list renderer   (src/unnamed/part_002),
      - the quad-expansion renderer (src/unnamed/part_003),
      - the starfield renderer    (src/src/webgpu/webgpu_sample.ts).
    The first point renderer of part_002 (class WebGPUPointRenderer) and
    the twinkling renderer of src/unnamed/part_000 are embedded as well.

    Numbers.  A JavaScript [number] is embedded as an exact rational
    extended with the IEEE special values [Infinity], [-Infinity] and
    [NaN].  The special values follow IEEE 754 (as [Math.min], [Math.max],
    [-], [*], [/] and the comparisons do); rounding of finite results and
    the sign of zero are not represented, so a finite result is the exact
    one and a zero divisor counts as [+0].  Storing into a [Float32Array]
    is the identity under this reading.

    Overflow.  The arithmetic of [normalizeCoordinate] works on the
    coordinates of the data, which range over all doubles: there a result
    whose exact value reaches the overflow threshold of a double is
    [Infinity] or [-Infinity], as under IEEE round-to-nearest.  The other
    arithmetic of the sources is on array lengths and on numbers between
    [-1] and [1], which stay far below that threshold.

    Effects.  A method is a function from the receiver (and the GPU it
    talks to) to an outcome together with the receiver after the call: a
    JavaScript exception is the [Threw] outcome, and the fields assigned
    before the throw stay assigned. *)

From Stdlib Require Import QArith Qround Lqa Lia.
From Stdlib Require Qcanon.
From stdpp Require Import base option list strings gmap.

Local Open Scope Q_scope.

(** ** JavaScript numbers *)

Inductive number : Type :=
| Fin (q : Q)
| PInf
| NInf
| NaN.

(** A finite result, kept in lowest terms so that equal results are
    syntactically equal. *)
Definition fin (q : Q) : number := Fin (Qred q).

Definition is_nan (a : number) : bool :=
  match a with NaN => true | _ => false end.

Definition is_finite (a : number) : bool :=
  match a with Fin _ => true | _ => false end.

(** [a + b] *)
Definition nadd (a b : number) : number :=
  match a, b with
  | NaN, _ | _, NaN => NaN
  | Fin p, Fin q => fin (p + q)
  | PInf, NInf | NInf, PInf => NaN
  | PInf, _ | _, PInf => PInf
  | NInf, _ | _, NInf => NInf
  end.

(** [a - b] *)
Definition nsub (a b : number) : number :=
  match a, b with
  | NaN, _ | _, NaN => NaN
  | Fin p, Fin q => fin (p - q)
  | PInf, PInf | NInf, NInf => NaN
  | PInf, _ | _, NInf => PInf
  | NInf, _ | _, PInf => NInf
  end.

(** An infinity with the sign of [s * q]; [NaN] when [q] is zero. *)
Definition inf_times (positive : bool) (q : Q) : number :=
  match q ?= 0 with
  | Eq => NaN
  | Gt => if positive then PInf else NInf
  | Lt => if positive then NInf else PInf
  end.

(** [a * b] *)
Definition nmul (a b : number) : number :=
  match a, b with
  | NaN, _ | _, NaN => NaN
  | Fin p, Fin q => fin (p * q)
  | PInf, Fin q | Fin q, PInf => inf_times true q
  | NInf, Fin q | Fin q, NInf => inf_times false q
  | PInf, PInf | NInf, NInf => PInf
  | PInf, NInf | NInf, PInf => NInf
  end.

(** [a / b]; a zero divisor is [+0]. *)
Definition ndiv (a b : number) : number :=
  match a, b with
  | NaN, _ | _, NaN => NaN
  | Fin p, Fin q =>
      if Qeq_bool q 0 then inf_times true p else fin (p / q)
  | Fin _, (PInf | NInf) => Fin 0
  | (PInf | NInf), (PInf | NInf) => NaN
  | PInf, Fin q => match q ?= 0 with Lt => NInf | _ => PInf end
  | NInf, Fin q => match q ?= 0 with Lt => PInf | _ => NInf end
  end.

(** [a <= b] *)
Definition nleb (a b : number) : bool :=
  match a, b with
  | NaN, _ | _, NaN => false
  | NInf, _ | _, PInf => true
  | Fin p, Fin q => Qle_bool p q
  | _, _ => false
  end.

(** [a === b] *)
Definition neqb (a b : number) : bool :=
  match a, b with
  | Fin p, Fin q => Qeq_bool p q
  | PInf, PInf | NInf, NInf => true
  | _, _ => false
  end.

(** [Math.min(a, b)] *)
Definition Math_min (a b : number) : number :=
  match a, b with
  | NaN, _ | _, NaN => NaN
  | NInf, _ | _, NInf => NInf
  | PInf, c | c, PInf => c
  | Fin p, Fin q => if Qle_bool p q then a else b
  end.

(** [Math.max(a, b)] *)
Definition Math_max (a b : number) : number :=
  match a, b with
  | NaN, _ | _, NaN => NaN
  | PInf, _ | _, PInf => PInf
  | NInf, c | c, NInf => c
  | Fin p, Fin q => if Qle_bool p q then b else a
  end.

Definition nle (a b : number) : Prop := nleb a b = true.

(** *** Overflow of doubles *)

(** The least magnitude that round-to-nearest turns into an infinity:
    half way between the largest double, [2^1024 - 2^971], and [2^1024]. *)
Definition overflow_threshold : Q := inject_Z (2 ^ 1024 - 2 ^ 970).

(** The result of an operation as a double: a finite value at or beyond
    the threshold overflows. *)
Definition overflow (a : number) : number :=
  match a with
  | Fin q =>
      if Qle_bool overflow_threshold q then PInf
      else if Qle_bool q (- overflow_threshold) then NInf
      else a
  | _ => a
  end.

(** [a - b], [a * b] and [a / b] on doubles of any magnitude. *)
Definition sub_double (a b : number) : number := overflow (nsub a b).
Definition mul_double (a b : number) : number := overflow (nmul a b).
Definition div_double (a b : number) : number := overflow (ndiv a b).

(** ** Exceptions and outcomes *)

Inductive exn : Type :=
| TypeError                (* property access on null or undefined *)
| Error (message : string) (* [throw new Error(message)] *)
| Rejection.               (* an awaited promise was rejected *)

Inductive outcome (A : Type) : Type :=
| Returned (a : A)
| Threw (e : exn).
Arguments Returned {A} a.
Arguments Threw {A} e.

(** ** Vec2, Point (part_002, part_003) *)

Module Vec2.
Record t : Type := new { x : number; y : number }.
Definition toArray (v : t) : list number := [x v; y v].
End Vec2.

Record Point : Type := { position : Vec2.t }.

Module Bounds.
Record t : Type := { min : Vec2.t; max : Vec2.t }.
End Bounds.

(** ** The tile source *)

(** Modelled from the spec: the classes [Deeptable] and [Tile] are
    imported by part_001 and are not part of the sources.  Section 6 gives
    their interface: a readiness signal, [visit(callback(tile))],
    [tile.hasLoadedColumn(name)] and the tile's rows, records with numeric
    fields.  A tile is its set of loaded columns and its rows; a table is
    the outcome of awaiting [ready] and the tiles in the order in which
    [visit] hands them to the callback. *)
Record Row : Type := { row_x : number; row_y : number }.

Record Tile : Type := {
  loaded_columns : gset string;
  record_batch : list Row;
}.

Definition hasLoadedColumn (tile : Tile) (name : string) : bool :=
  bool_decide (name ∈ loaded_columns tile).

Record Deeptable : Type := {
  ready : bool;          (* [true]: the promise fulfils; [false]: it rejects *)
  visited : list Tile;
}.

(** ** ShallowTable (part_001) *)

Module ShallowTable.

Record t : Type := {
  points : list Point;
  deeptable : Deeptable;
  bounds : option Bounds.t;
}.

Definition constructor (dt : Deeptable) : t :=
  {| points := []; deeptable := dt; bounds := None |}.

(** The variables the visitor callback closes over: the four running
    limits and [this.points]. *)
Record acc : Type := {
  minX : number; minY : number; maxX : number; maxY : number;
  pts : list Point;
}.

Definition acc0 : acc :=
  {| minX := PInf; minY := PInf; maxX := NInf; maxY := NInf; pts := [] |}.

(** One iteration of [for (const row of tile.record_batch)]. *)
Definition visit_row (a : acc) (row : Row) : acc :=
  let x := row_x row in
  let y := row_y row in
  {| minX := Math_min (minX a) x;
     minY := Math_min (minY a) y;
     maxX := Math_max (maxX a) x;
     maxY := Math_max (maxY a) y;
     pts := pts a ++ [ {| position := Vec2.new x y |} ] |}.

(** The callback given to [deeptable.visit]. *)
Definition visit_tile (a : acc) (tile : Tile) : acc :=
  if negb (hasLoadedColumn tile "x") || negb (hasLoadedColumn tile "y")
  then a
  else fold_left visit_row (record_batch tile) a.

Definition collectPoints (this : t) : outcome (list Point) * t :=
  if negb (ready (deeptable this)) then (Threw Rejection, this)
  else
    let a := fold_left visit_tile (visited (deeptable this)) acc0 in
    let this' :=
      {| points := pts a;
         deeptable := deeptable this;
         bounds := Some {| Bounds.min := Vec2.new (minX a) (minY a);
                           Bounds.max := Vec2.new (maxX a) (maxY a) |} |} in
    (Returned (points this'), this').

Definition getBounds (this : t) : outcome Bounds.t :=
  match bounds this with
  | None => Threw (Error "Must call collectPoints first")
  | Some b => Returned b
  end.

Definition normalizeCoordinate (value min max : number) : number :=
  let normalized := div_double (sub_double value min) (sub_double max min) in
  sub_double (mul_double normalized (Fin 2)) (Fin 1).

(** [this.points.forEach((point, i) => ...)], from index [i] on.
    [this.bounds!] is a type assertion only: reading [.min] of [null]
    throws. *)
Fixpoint forEach (b : option Bounds.t) (ps : list Point) (i : nat)
    (array : list number) : outcome (list number) :=
  match ps with
  | [] => Returned array
  | point :: ps' =>
      match b with
      | None => Threw TypeError
      | Some b =>
          let x := normalizeCoordinate (Vec2.x (position point))
                     (Vec2.x (Bounds.min b)) (Vec2.x (Bounds.max b)) in
          let y := normalizeCoordinate (Vec2.y (position point))
                     (Vec2.y (Bounds.min b)) (Vec2.y (Bounds.max b)) in
          let array := <[(i * 2)%nat := x]> array in
          let array := <[(i * 2 + 1)%nat := y]> array in
          forEach (Some b) ps' (S i) array
      end
  end.

Definition getNormalizedPointsArray (this : t) : outcome (list number) :=
  let array := replicate (length (points this) * 2) (Fin 0) in
  forEach (bounds this) (points this) 0 array.

End ShallowTable.


(** ** Typed arrays *)

(** [a[i]] read as a number: past the end the read is [undefined], which
    is [NaN] in arithmetic and when stored into a [Float32Array]. *)
Definition typed_get (a : list number) (i : nat) : number :=
  default NaN (a !! i).

(** [new Float32Array(n)]: [n] zeros.  The sources only pass lengths that
    are non-negative integers. *)
Definition Float32Array_new (n : number) : list number :=
  match n with
  | Fin q => replicate (Z.to_nat (Qfloor q)) (Fin 0)
  | _ => []
  end.

Definition length_of (a : list number) : number :=
  Fin (inject_Z (Z.of_nat (length a))).

(** The number of iterations of [for (let i = 0; i < bound; i++)]. *)
Definition trip_count (bound : number) : nat :=
  match bound with
  | Fin q => Z.to_nat (Qceiling q)
  | _ => 0%nat
  end.

(** ** The GPU backend and the console *)

(** Modelled from the spec: the WebGPU binding is an external collaborator
    (section 6, GPU backend interface: create and write device buffers,
    begin and end a render pass with a clear colour, submit recorded
    commands).  A device buffer is a handle into the device memory; a
    submitted command buffer is the clear colour of its pass and the
    commands recorded in it.  The world also holds the diagnostics written
    with [console.warn] and [console.error] ([console.log] traces are not
    kept) and the number of [Math.random()] calls made so far. *)
Definition GPUBuffer : Type := nat.

Inductive GPUDevice : Type := the_device.
Inductive GPUCanvasContext : Type := the_context.

Inductive topology : Type := point_list | triangle_list.

Record GPURenderPipeline : Type := {
  primitive_topology : topology;
  arrayStrides : list nat;      (* one vertex-buffer layout per slot *)
}.

Inductive pass_command : Type :=
| setPipeline (p : GPURenderPipeline)
| setVertexBuffer (slot : nat) (b : GPUBuffer)
| draw (vertexCount : number) (instanceCount firstVertex firstInstance : nat).

Record CommandBuffer : Type := {
  clearValue : Q * Q * Q * Q;
  recorded : list pass_command;
}.

Inductive level : Type := warn | error.

Record World : Type := {
  memory : list (list number);          (* contents of each buffer *)
  submitted : list CommandBuffer;       (* [device.queue.submit] *)
  console : list (level * string);
  random_calls : nat;
}.

Definition world0 : World :=
  {| memory := []; submitted := []; console := []; random_calls := 0 |}.

(** [device.createBuffer({size, ...})], [size] counted in floats. *)
Definition createBuffer (floats : nat) (w : World) : GPUBuffer * World :=
  (length (memory w),
   {| memory := memory w ++ [replicate floats (Fin 0)];
      submitted := submitted w; console := console w;
      random_calls := random_calls w |}).

(** [device.queue.writeBuffer(buffer, 0, data)]: the data replace the
    head of the buffer; data that do not fit are a validation error of the
    device and nothing is written. *)
Definition writeBuffer (b : GPUBuffer) (data : list number) (w : World) : World :=
  match memory w !! b with
  | Some old =>
      if (length data <=? length old)%nat
      then {| memory := <[b := data ++ drop (length data) old]> (memory w);
              submitted := submitted w; console := console w;
              random_calls := random_calls w |}
      else w
  | None => w
  end.

Definition submit (c : CommandBuffer) (w : World) : World :=
  {| memory := memory w; submitted := submitted w ++ [c];
     console := console w; random_calls := random_calls w |}.

Definition console_print (l : level) (message : string) (w : World) : World :=
  {| memory := memory w; submitted := submitted w;
     console := console w ++ [(l, message)];
     random_calls := random_calls w |}.

(** What the browser answers during [initialize]. *)
Record Navigator : Type := {
  gpu : bool;              (* [navigator.gpu] is defined *)
  adapter : bool;          (* [requestAdapter()] is not null *)
  webgpu_context : bool;   (* [canvas.getContext('webgpu')] is not null *)
}.

(** The draw calls of a world, in submission order. *)
Definition draws_of (c : CommandBuffer) : list number :=
  omap (fun cmd => match cmd with draw n _ _ _ => Some n | _ => None end)
       (recorded c).

Definition draw_calls (w : World) : list number :=
  concat (map draws_of (submitted w)).

(** ** The point-list renderer (part_002, class WebGPURenderer) *)

Module PointList.

Record t : Type := {
  device : option GPUDevice;
  context : option GPUCanvasContext;
  pipeline : option GPURenderPipeline;
  vertexBuffer : option GPUBuffer;
  vertexCount : number;
}.

Definition constructor : t :=
  {| device := None; context := None; pipeline := None;
     vertexBuffer := None; vertexCount := Fin 0 |}.

Definition createPipeline (this : t) : outcome unit * t :=
  match device this with
  | None => (Threw (Error "Device not initialized"), this)
  | Some _ =>
      (Returned (),
       {| device := device this; context := context this;
          pipeline := Some {| primitive_topology := point_list;
                              arrayStrides := [8%nat] |};
          vertexBuffer := vertexBuffer this;
          vertexCount := vertexCount this |})
  end.

Definition initialize (nav : Navigator) (this : t) : outcome unit * t :=
  if negb (gpu nav) then (Threw (Error "WebGPU not supported"), this)
  else if negb (adapter nav)
  then (Threw (Error "No appropriate GPUAdapter found"), this)
  else
    let this :=
      {| device := Some the_device;
         context := if webgpu_context nav then Some the_context else None;
         pipeline := pipeline this; vertexBuffer := vertexBuffer this;
         vertexCount := vertexCount this |} in
    if negb (webgpu_context nav)
    then (Threw (Error "Failed to get WebGPU context"), this)
    else createPipeline this.

Definition setDataArray (points : option (list number)) (this : t) (w : World)
    : outcome unit * t * World :=
  match points with
  | None | Some [] =>
      (Returned (), this,
       console_print error "Received empty or null points array" w)
  | Some points =>
      let this :=
        {| device := device this; context := context this;
           pipeline := pipeline this; vertexBuffer := vertexBuffer this;
           vertexCount := ndiv (length_of points) (Fin 2) |} in
      match device this with
      | None => (Threw TypeError, this, w)
      | Some _ =>
          let '(buffer, w) := createBuffer (length points) w in
          let this :=
            {| device := device this; context := context this;
               pipeline := pipeline this; vertexBuffer := Some buffer;
               vertexCount := vertexCount this |} in
          (Returned (), this, writeBuffer buffer points w)
      end
  end.

Definition render (this : t) (w : World) : outcome unit * t * World :=
  match vertexBuffer this with
  | Some buffer =>
      if neqb (vertexCount this) (Fin 0)
      then (Returned (), this, console_print warn "No vertices to render" w)
      else
        match device this, context this, pipeline this with
        | Some _, Some _, Some p =>
            let pass :=
              {| clearValue := (0, 0, 1 # 10, 1);
                 recorded := [ setPipeline p; setVertexBuffer 0 buffer;
                               draw (vertexCount this) 1 0 0 ] |} in
            (Returned (), this, submit pass w)
        | _, _, _ => (Threw TypeError, this, w)
        end
  | None => (Returned (), this, console_print warn "No vertices to render" w)
  end.

End PointList.

(** ** The quad-expansion renderer (part_003) *)

Module Quad.

Record t : Type := {
  device : option GPUDevice;
  context : option GPUCanvasContext;
  pipeline : option GPURenderPipeline;
  vertexBuffer : option GPUBuffer;
  vertexCount : number;
}.

Definition constructor : t :=
  {| device := None; context := None; pipeline := None;
     vertexBuffer := None; vertexCount := Fin 0 |}.

Definition createPipeline (this : t) : outcome unit * t :=
  match device this with
  | None => (Threw (Error "Device not initialized"), this)
  | Some _ =>
      (Returned (),
       {| device := device this; context := context this;
          pipeline := Some {| primitive_topology := triangle_list;
                              arrayStrides := [8%nat] |};
          vertexBuffer := vertexBuffer this;
          vertexCount := vertexCount this |})
  end.

Definition initialize (nav : Navigator) (this : t) : outcome unit * t :=
  if negb (gpu nav) then (Threw (Error "WebGPU not supported"), this)
  else if negb (adapter nav)
  then (Threw (Error "No appropriate GPUAdapter found"), this)
  else
    let this :=
      {| device := Some the_device;
         context := if webgpu_context nav then Some the_context else None;
         pipeline := pipeline this; vertexBuffer := vertexBuffer this;
         vertexCount := vertexCount this |} in
    if negb (webgpu_context nav)
    then (Threw (Error "Failed to get WebGPU context"), this)
    else createPipeline this.

(** [for (let j = 0; j < 6; j++)]: the six vertices of point [i]. *)
Definition expand_point (x y : number) (i : nat) (vertexData : list number)
    : list number :=
  fold_left
    (fun vertexData j =>
       let vertexData := <[(i * 12 + j * 2)%nat := x]> vertexData in
       <[(i * 12 + j * 2 + 1)%nat := y]> vertexData)
    (seq 0 6) vertexData.

(** [for (let i = 0; i < numPoints; i++)] *)
Definition fill (points : list number) (numPoints : number)
    (vertexData : list number) : list number :=
  fold_left
    (fun vertexData i =>
       let x := typed_get points (i * 2) in
       let y := typed_get points (i * 2 + 1) in
       expand_point x y i vertexData)
    (seq 0 (trip_count numPoints)) vertexData.

Definition setDataArray (points : option (list number)) (this : t) (w : World)
    : outcome unit * t * World :=
  match points with
  | None | Some [] =>
      (Returned (), this,
       console_print error "Received empty or null points array" w)
  | Some points =>
      let numPoints := ndiv (length_of points) (Fin 2) in
      let this :=
        {| device := device this; context := context this;
           pipeline := pipeline this; vertexBuffer := vertexBuffer this;
           vertexCount := nmul numPoints (Fin 6) |} in
      let vertexData :=
        Float32Array_new (nmul (nmul numPoints (Fin 6)) (Fin 2)) in
      let vertexData := fill points numPoints vertexData in
      match device this with
      | None => (Threw TypeError, this, w)
      | Some _ =>
          let '(buffer, w) := createBuffer (length vertexData) w in
          let this :=
            {| device := device this; context := context this;
               pipeline := pipeline this; vertexBuffer := Some buffer;
               vertexCount := vertexCount this |} in
          (Returned (), this, writeBuffer buffer vertexData w)
      end
  end.

Definition render (this : t) (w : World) : outcome unit * t * World :=
  match vertexBuffer this with
  | Some buffer =>
      if neqb (vertexCount this) (Fin 0)
      then (Returned (), this, console_print warn "No vertices to render" w)
      else
        match device this, context this, pipeline this with
        | Some _, Some _, Some p =>
            let pass :=
              {| clearValue := (0, 0, 1 # 10, 1);
                 recorded := [ setPipeline p; setVertexBuffer 0 buffer;
                               draw (vertexCount this) 1 0 0 ] |} in
            (Returned (), this, submit pass w)
        | _, _, _ => (Threw TypeError, this, w)
        end
  | None => (Returned (), this, console_print warn "No vertices to render" w)
  end.

End Quad.

(** ** The starfield renderer (webgpu_sample.ts) *)

Module Sample.

Record t : Type := {
  device : option GPUDevice;
  context : option GPUCanvasContext;
  pipeline : option GPURenderPipeline;
  vertexBuffer : option GPUBuffer;
  opacityBuffer : option GPUBuffer;
  starOpacities : option (list number);
}.

Definition constructor : t :=
  {| device := None; context := None; pipeline := None;
     vertexBuffer := None; opacityBuffer := None; starOpacities := None |}.

Definition set_starOpacities (a : option (list number)) (this : t) : t :=
  {| device := device this; context := context this;
     pipeline := pipeline this; vertexBuffer := vertexBuffer this;
     opacityBuffer := opacityBuffer this; starOpacities := a |}.

Definition createPipeline (this : t) : outcome unit * t :=
  match device this with
  | None => (Threw (Error "Device not initialized"), this)
  | Some _ =>
      (Returned (),
       {| device := device this; context := context this;
          pipeline := Some {| primitive_topology := point_list;
                              arrayStrides := [8%nat; 4%nat] |};
          vertexBuffer := vertexBuffer this;
          opacityBuffer := opacityBuffer this;
          starOpacities := starOpacities this |})
  end.

Section WithRandom.

(** [Math_random k] is what the [k]-th call of [Math.random()]
    returns. *)
Variable Math_random : nat -> Q.

Definition random (w : World) : number * World :=
  (Fin (Math_random (random_calls w)),
   {| memory := memory w; submitted := submitted w;
      console := console w; random_calls := S (random_calls w) |}).

(** One iteration of the loop of [createStarfield], [i = 2 * k]. *)
Definition place_star (s : list number * list number * World) (k : nat)
    : list number * list number * World :=
  let '(stars, opacities, w) := s in
  let i := (2 * k)%nat in
  let '(r, w) := random w in
  let stars := <[i := nsub (nmul r (Fin 2)) (Fin 1)]> stars in
  let '(r, w) := random w in
  let stars := <[(i + 1)%nat := nsub (nmul r (Fin 2)) (Fin 1)]> stars in
  let '(r, w) := random w in
  let opacities := <[(i / 2)%nat := r]> opacities in
  (stars, opacities, w).

Definition createStarfield (this : t) (w : World) : outcome unit * t * World :=
  match device this with
  | None => (Threw (Error "Device not initialized"), this, w)
  | Some _ =>
      let numStars := 1000%nat in
      let stars := replicate (numStars * 2) (Fin 0) in
      let opacities := replicate numStars (Fin 0) in
      let '(stars, opacities, w) :=
        fold_left place_star (seq 0 numStars) (stars, opacities, w) in
      let '(vertices, w) := createBuffer (length stars) w in
      let w := writeBuffer vertices stars w in
      let '(alphas, w) := createBuffer (length opacities) w in
      let w := writeBuffer alphas opacities w in
      (Returned (),
       {| device := device this; context := context this;
          pipeline := pipeline this; vertexBuffer := Some vertices;
          opacityBuffer := Some alphas;
          starOpacities := Some opacities |},
       w)
  end.

Definition initialize (nav : Navigator) (this : t) (w : World)
    : outcome unit * t * World :=
  if negb (gpu nav) then (Threw (Error "WebGPU not supported"), this, w)
  else if negb (adapter nav)
  then (Threw (Error "No GPU adapter found"), this, w)
  else
    let this :=
      {| device := Some the_device;
         context := if webgpu_context nav then Some the_context else None;
         pipeline := pipeline this; vertexBuffer := vertexBuffer this;
         opacityBuffer := opacityBuffer this;
         starOpacities := starOpacities this |} in
    if negb (webgpu_context nav)
    then (Threw (Error "Could not get WebGPU context"), this, w)
    else
      match createPipeline this with
      | (Returned _, this) => createStarfield this w
      | (Threw e, this) => (Threw e, this, w)
      end.

(** The blend of one element towards its target. *)
Definition blend (currentOpacity targetOpacity : number) : number :=
  nadd currentOpacity
       (nmul (nsub targetOpacity currentOpacity) (Fin (4 # 10))).

(** [0.05 + Math.random() * 0.95] *)
Definition draw_target (w : World) : number * World :=
  let '(r, w) := random w in
  (nadd (Fin (5 # 100)) (nmul r (Fin (95 # 100))), w).

(** One iteration of [for (let i = 0; i < 1000; i++)]; a store past
    the end of the typed array is dropped. *)
Definition twinkle (s : list number * World) (i : nat) : list number * World :=
  let '(opacities, w) := s in
  let currentOpacity := typed_get opacities i in
  let '(targetOpacity, w) := draw_target w in
  (<[i := blend currentOpacity targetOpacity]> opacities, w).

Definition updateOpacities (this : t) (w : World) : outcome unit * t * World :=
  match device this, opacityBuffer this, starOpacities this with
  | Some _, Some buffer, Some opacities =>
      let '(opacities, w) := fold_left twinkle (seq 0 1000) (opacities, w) in
      (Returned (), set_starOpacities (Some opacities) this,
       writeBuffer buffer opacities w)
  | _, _, _ => (Returned (), this, w)
  end.

Definition render (this : t) (w : World) : outcome unit * t * World :=
  match device this, context this, pipeline this,
        vertexBuffer this, opacityBuffer this, starOpacities this with
  | Some _, Some _, Some p, Some vertices, Some alphas, Some _ =>
      let '(_, this, w) := updateOpacities this w in
      let w := writeBuffer alphas (default [] (starOpacities this)) w in
      let pass :=
        {| clearValue := (0, 0, 1 # 10, 1);
           recorded := [ setPipeline p; setVertexBuffer 0 vertices;
                         setVertexBuffer 1 alphas;
                         draw (Fin 1000) 1 0 0 ] |} in
      (Returned (), this, submit pass w)
  | _, _, _, _, _, _ => (Returned (), this, w)
  end.

(** [n] animation steps in a row. *)
Fixpoint steps (n : nat) (this : t) (w : World) : t * World :=
  match n with
  | O => (this, w)
  | S n =>
      let '(_, this, w) := updateOpacities this w in
      steps n this w
  end.

End WithRandom.

End Sample.

(** ** Vocabulary of the statements *)

(** A tile the callback reads: both required columns are loaded. *)
Definition usable (tile : Tile) : bool :=
  hasLoadedColumn tile "x" && hasLoadedColumn tile "y".

Definition point_of_row (row : Row) : Point :=
  {| position := Vec2.new (row_x row) (row_y row) |}.

(** The rows of the usable tiles, in visiting order. *)
Definition usable_rows (tiles : list Tile) : list Row :=
  concat (map record_batch (List.filter usable tiles)).

Definition not_nan (a : number) : Prop := is_nan a = false.

(** [lo <= a <= hi] for a finite [a]. *)
Definition betweenb (lo hi : Q) (a : number) : bool :=
  match a with
  | Fin q => Qle_bool lo q && Qle_bool q hi
  | _ => false
  end.

Definition between (lo hi : Q) (a : number) : Prop := betweenb lo hi a = true.

(** ** Inputs and vocabulary of the examples *)

(** The limits the running minimum and maximum start from. *)
Definition limits : Bounds.t :=
  {| Bounds.min := Vec2.new PInf PInf; Bounds.max := Vec2.new NInf NInf |}.

Definition ordered (b : Bounds.t) : Prop :=
  nle (Vec2.x (Bounds.min b)) (Vec2.x (Bounds.max b)) /\
  nle (Vec2.y (Bounds.min b)) (Vec2.y (Bounds.max b)).

(** Three tiles: two usable ones with three rows in all, and one with
    only the [x] column loaded. *)
Definition three_tiles : Deeptable :=
  {| ready := true;
     visited :=
       [ {| loaded_columns := {[ "x"; "y" ]};
            record_batch := [ {| row_x := Fin 0; row_y := Fin 1 |};
                              {| row_x := Fin 5; row_y := Fin 3 |} ] |};
         {| loaded_columns := {[ "x" ]};
            record_batch := [ {| row_x := Fin 9; row_y := Fin 9 |} ] |};
         {| loaded_columns := {[ "y"; "x"; "color" ]};
            record_batch := [ {| row_x := Fin (5 # 2); row_y := Fin 2 |} ] |} ] |}.

(** A table whose only tile has both columns loaded and no row. *)
Definition empty_tile : Deeptable :=
  {| ready := true;
     visited := [ {| loaded_columns := {[ "x"; "y" ]}; record_batch := [] |} ] |}.

(** A table with one usable row whose [x] is [NaN]. *)
Definition nan_tile : Deeptable :=
  {| ready := true;
     visited := [ {| loaded_columns := {[ "x"; "y" ]};
                     record_batch := [ {| row_x := NaN; row_y := Fin 0 |} ] |} ] |}.

(** The two entries [getNormalizedPointsArray] writes for one point. *)
Definition normalized_pair (b : Bounds.t) (point : Point) : list number :=
  [ ShallowTable.normalizeCoordinate (Vec2.x (position point))
      (Vec2.x (Bounds.min b)) (Vec2.x (Bounds.max b));
    ShallowTable.normalizeCoordinate (Vec2.y (position point))
      (Vec2.y (Bounds.min b)) (Vec2.y (Bounds.max b)) ].

(** A table holding the three anchor points of the bounds
    [(0, 10) .. (4, 30)]: the minimum, the maximum and the midpoint. *)
Definition anchors : ShallowTable.t :=
  {| ShallowTable.points :=
       [ {| position := Vec2.new (Fin 0) (Fin 10) |};
         {| position := Vec2.new (Fin 4) (Fin 30) |};
         {| position := Vec2.new (Fin 2) (Fin 20) |} ];
     ShallowTable.deeptable := {| ready := true; visited := [] |};
     ShallowTable.bounds :=
       Some {| Bounds.min := Vec2.new (Fin 0) (Fin 10);
               Bounds.max := Vec2.new (Fin 4) (Fin 30) |} |}.

(** A table whose abscissas span more than the largest double: the
    corners [(-2^1023, 0)] and [(2^1023, 1)] and the point half way. *)
Definition wide_table : Deeptable :=
  {| ready := true;
     visited :=
       [ {| loaded_columns := {[ "x"; "y" ]};
            record_batch :=
              [ {| row_x := Fin (inject_Z (- 2 ^ 1023)); row_y := Fin 0 |};
                {| row_x := Fin (inject_Z (2 ^ 1023)); row_y := Fin 1 |};
                {| row_x := Fin 0; row_y := Fin (1 # 2) |} ] |} ] |}.

(** A table with a row whose ordinate is [-Infinity]. *)
Definition infinite_row : Deeptable :=
  {| ready := true;
     visited := [ {| loaded_columns := {[ "x"; "y" ]};
                     record_batch := [ {| row_x := Fin 0; row_y := NInf |};
                                       {| row_x := Fin 1; row_y := Fin 0 |} ] |} ] |}.

(** A table with one usable tile whose two rows agree on [y]. *)
Definition flat_tile : Deeptable :=
  {| ready := true;
     visited := [ {| loaded_columns := {[ "x"; "y" ]};
                     record_batch := [ {| row_x := Fin 0; row_y := Fin 7 |};
                                       {| row_x := Fin 5; row_y := Fin 7 |} ] |} ] |}.

(** A browser that grants a device and no canvas context. *)
Definition no_context : Navigator :=
  {| gpu := true; adapter := true; webgpu_context := false |}.

(** A browser that grants everything. *)
Definition full_support : Navigator :=
  {| gpu := true; adapter := true; webgpu_context := true |}.

(** The point-list renderer after [initialize] failed on the canvas
    context and [setDataArray] was given one point. *)
Definition loaded_without_context : PointList.t * World :=
  let this := (PointList.initialize no_context PointList.constructor).2 in
  let '(_, this, w) := PointList.setDataArray (Some [Fin 0; Fin 0]) this world0 in
  (this, w).

(** The point-list renderer, initialised, holding two points. *)
Definition two_points : PointList.t * World :=
  let this := (PointList.initialize full_support PointList.constructor).2 in
  let '(_, this, w) :=
    PointList.setDataArray (Some [Fin 0; Fin 0; Fin 1; Fin 1]) this world0 in
  (this, w).

(** The world after [n] more calls of [Math.random()]. *)
Definition after_draws (n : nat) (w : World) : World :=
  {| memory := memory w; submitted := submitted w; console := console w;
     random_calls := (n + random_calls w)%nat |}.

(** The target opacity made from the [k]-th random number. *)
Definition target_at (Math_random : nat -> Q) (k : nat) : number :=
  nadd (Fin (5 # 100)) (nmul (Fin (Math_random k)) (Fin (95 # 100))).

(** The starfield of a fully supported browser when every random number
    is one half. *)
Definition starfield : Sample.t * World :=
  let '(_, this, w) :=
    Sample.initialize (fun _ => 1 # 2) full_support Sample.constructor world0 in
  (this, w).

(** A natural number as a JavaScript number. *)
Definition of_nat (n : nat) : number := Fin (inject_Z (Z.of_nat n)).

(** The twelve floats of the six vertices of one point. *)
Definition quad (x y : number) : list number :=
  [x; y; x; y; x; y; x; y; x; y; x; y].

Definition quad_of (points : list number) (i : nat) : list number :=
  quad (typed_get points (i * 2)) (typed_get points (i * 2 + 1)).

(** The quad renderer, initialised, before any data. *)
Definition quad_ready : Quad.t :=
  (Quad.initialize full_support Quad.constructor).2.

(** ** The render loop of the starfield renderer *)

(** [n] frames in a row, as the caller's animation loop drives
    [Sample.render]; the loop stops at the first exception. *)
Fixpoint frames (Math_random : nat -> Q) (n : nat) (this : Sample.t) (w : World)
    : outcome unit * Sample.t * World :=
  match n with
  | O => (Returned (), this, w)
  | S n =>
      match Sample.render Math_random this w with
      | (Returned _, this, w) => frames Math_random n this w
      | thrown => thrown
      end
  end.

(** ** The first point renderer (part_002, class WebGPUPointRenderer) *)

(** [v[key]] for a [Vec2] object [v]: its own data properties are [x] and
    [y]; any other key read as a number is [undefined]. *)
Definition Vec2_get (v : Vec2.t) (key : string) : option number :=
  if String.eqb key "x" then Some (Vec2.x v)
  else if String.eqb key "y" then Some (Vec2.y v)
  else None.

Module PointRenderer.

Record t : Type := {
  device : option GPUDevice;
  context : option GPUCanvasContext;
  pipeline : option GPURenderPipeline;
  vertexBuffer : option GPUBuffer;
  pointData : list Point;
}.

Definition constructor : t :=
  {| device := None; context := None; pipeline := None;
     vertexBuffer := None; pointData := [] |}.

Definition initialize (nav : Navigator) (this : t) : outcome unit * t :=
  if negb (gpu nav) then (Threw (Error "WebGPU not supported"), this)
  else if negb (adapter nav)
  then (Threw (Error "No appropriate GPUAdapter found"), this)
  else
    let this :=
      {| device := Some the_device;
         context := if webgpu_context nav then Some the_context else None;
         pipeline := pipeline this; vertexBuffer := vertexBuffer this;
         pointData := pointData this |} in
    if negb (webgpu_context nav)
    then (Threw (Error "Failed to get WebGPU context"), this)
    else
      (Returned (),
       {| device := device this; context := context this;
          pipeline := Some {| primitive_topology := point_list;
                              arrayStrides := [8%nat] |};
          vertexBuffer := vertexBuffer this; pointData := pointData this |}).

(** [points.forEach((point, i) => ...)], from index [i] on: the reads
    [point.position[0]] and [point.position[1]] are reads of the
    properties ["0"] and ["1"] of a [Vec2]. *)
Fixpoint forEach (ps : list Point) (i : nat) (vertexData : list number)
    : list number :=
  match ps with
  | [] => vertexData
  | point :: ps' =>
      let vertexData :=
        <[(i * 2)%nat := default NaN (Vec2_get (position point) "0")]>
          vertexData in
      let vertexData :=
        <[(i * 2 + 1)%nat := default NaN (Vec2_get (position point) "1")]>
          vertexData in
      forEach ps' (S i) vertexData
  end.

Definition setData (points : list Point) (this : t) (w : World)
    : outcome unit * t * World :=
  let this :=
    {| device := device this; context := context this;
       pipeline := pipeline this; vertexBuffer := vertexBuffer this;
       pointData := points |} in
  let vertexData := replicate (length points * 2) (Fin 0) in
  let vertexData := forEach points 0 vertexData in
  match device this with
  | None => (Threw TypeError, this, w)
  | Some _ =>
      let '(buffer, w) := createBuffer (length vertexData) w in
      let this :=
        {| device := device this; context := context this;
           pipeline := pipeline this; vertexBuffer := Some buffer;
           pointData := pointData this |} in
      (Returned (), this, writeBuffer buffer vertexData w)
  end.

End PointRenderer.

(** ** The twinkling renderer (part_000) *)

(** Modelled from the spec: [setInterval] and [clearInterval] belong to
    the browser (section 4.5 and 5, the periodic driver).  The browser
    keeps the active timers, each under a handle that is a fresh integer
    greater than zero, with the interval it was started with. *)
Record Timers : Type := {
  next_timer : nat;
  active : gmap nat number;
}.

Definition timers0 : Timers := {| next_timer := 1; active := ∅ |}.

Definition setInterval (interval : number) (tm : Timers) : nat * Timers :=
  (next_timer tm,
   {| next_timer := S (next_timer tm);
      active := <[next_timer tm := interval]> (active tm) |}).

Definition clearInterval (id : nat) (tm : Timers) : Timers :=
  {| next_timer := next_timer tm; active := delete id (active tm) |}.

Module Twinkle.

Record t : Type := {
  device : option GPUDevice;
  context : option GPUCanvasContext;
  pipeline : option GPURenderPipeline;
  vertexBuffer : option GPUBuffer;
  intervalId : option nat;
  starOpacities : option (list number);
}.

Definition constructor : t :=
  {| device := None; context := None; pipeline := None;
     vertexBuffer := None; intervalId := None; starOpacities := None |}.

Definition createPipeline (this : t) : outcome unit * t :=
  match device this with
  | None => (Threw (Error "Device not initialized"), this)
  | Some _ =>
      (Returned (),
       {| device := device this; context := context this;
          pipeline := Some {| primitive_topology := point_list;
                              arrayStrides := [8%nat] |};
          vertexBuffer := vertexBuffer this;
          intervalId := intervalId this;
          starOpacities := starOpacities this |})
  end.

Section WithRandom.

Variable Math_random : nat -> Q.

(** One iteration of the loop of [createStarfield], [i = 2 * k]. *)
Definition place_star (s : list number * list number * World) (k : nat)
    : list number * list number * World :=
  let '(stars, opacities, w) := s in
  let i := (2 * k)%nat in
  let '(r, w) := Sample.random Math_random w in
  let stars := <[i := nsub (nmul r (Fin 2)) (Fin 1)]> stars in
  let '(r, w) := Sample.random Math_random w in
  let stars := <[(i + 1)%nat := nsub (nmul r (Fin 2)) (Fin 1)]> stars in
  let '(r, w) := Sample.random Math_random w in
  let opacities := <[(i / 2)%nat := r]> opacities in
  (stars, opacities, w).

Definition createStarfield (this : t) (w : World) : outcome unit * t * World :=
  match device this with
  | None => (Threw (Error "Device not initialized"), this, w)
  | Some _ =>
      let numStars := 1000%nat in
      let stars := replicate (numStars * 2) (Fin 0) in
      let opacities := replicate numStars (Fin 0) in
      let '(stars, opacities, w) :=
        fold_left place_star (seq 0 numStars) (stars, opacities, w) in
      let '(vertices, w) := createBuffer (length stars) w in
      let w := writeBuffer vertices stars w in
      (Returned (),
       {| device := device this; context := context this;
          pipeline := pipeline this; vertexBuffer := Some vertices;
          intervalId := intervalId this;
          starOpacities := Some opacities |},
       w)
  end.

Definition initialize (nav : Navigator) (this : t) (w : World)
    : outcome unit * t * World :=
  if negb (gpu nav) then (Threw (Error "WebGPU not supported"), this, w)
  else if negb (adapter nav)
  then (Threw (Error "No GPU adapter found"), this, w)
  else
    let this :=
      {| device := Some the_device;
         context := if webgpu_context nav then Some the_context else None;
         pipeline := pipeline this; vertexBuffer := vertexBuffer this;
         intervalId := intervalId this;
         starOpacities := starOpacities this |} in
    if negb (webgpu_context nav)
    then (Threw (Error "Could not get WebGPU context"), this, w)
    else
      match createPipeline this with
      | (Returned _, this) => createStarfield this w
      | (Threw e, this) => (Threw e, this, w)
      end.

(** One iteration of [for (let i = 0; i < this.starOpacities.length; i++)]. *)
Definition flicker (s : list number * World) (i : nat) : list number * World :=
  let '(opacities, w) := s in
  let '(r, w) := Sample.random Math_random w in
  (<[i := r]> opacities, w).

Definition render (this : t) (w : World) : outcome unit * t * World :=
  match device this, context this, pipeline this, vertexBuffer this with
  | Some _, Some _, Some p, Some vertices =>
      let '(opacities, w) :=
        match starOpacities this with
        | Some opacities =>
            let '(opacities, w) :=
              fold_left flicker (seq 0 (length opacities)) (opacities, w) in
            (Some opacities, w)
        | None => (None, w)
        end in
      let this :=
        {| device := device this; context := context this;
           pipeline := pipeline this; vertexBuffer := vertexBuffer this;
           intervalId := intervalId this; starOpacities := opacities |} in
      let pass :=
        {| clearValue := (0, 0, 1 # 10, 1);
           recorded := [ setPipeline p; setVertexBuffer 0 vertices;
                         draw (Fin 1000) 1 0 0 ] |} in
      (Returned (), this, submit pass w)
  | _, _, _, _ => (Returned (), this, w)
  end.

End WithRandom.

(** [if (this.intervalId)]: [null] and [0] are falsy. *)
Definition startTwinkling (interval : number) (this : t) (tm : Timers)
    : t * Timers :=
  let tm :=
    match intervalId this with
    | Some id => if (id =? 0)%nat then tm else clearInterval id tm
    | None => tm
    end in
  let '(id, tm) := setInterval interval tm in
  ({| device := device this; context := context this;
      pipeline := pipeline this; vertexBuffer := vertexBuffer this;
      intervalId := Some id; starOpacities := starOpacities this |},
   tm).

End Twinkle.

(** ** Histories of a [ShallowTable] *)

(** The tables a program can hold: a new one, one whose external table
    loaded or dropped tiles in the meantime, and one on which
    [collectPoints] was called. *)
Inductive reachable : ShallowTable.t -> Prop :=
| reach_new dt : reachable (ShallowTable.constructor dt)
| reach_load this dt :
    reachable this ->
    reachable {| ShallowTable.points := ShallowTable.points this;
                 ShallowTable.deeptable := dt;
                 ShallowTable.bounds := ShallowTable.bounds this |}
| reach_collect this :
    reachable this -> reachable (ShallowTable.collectPoints this).2.

(** ** Further inputs and vocabulary *)

(** Two usable rows, the second with a [NaN] abscissa. *)
Definition nan_second_row : Deeptable :=
  {| ready := true;
     visited := [ {| loaded_columns := {[ "x"; "y" ]};
                     record_batch := [ {| row_x := Fin 1; row_y := Fin 2 |};
                                       {| row_x := NaN; row_y := Fin 4 |} ] |} ] |}.

(** A starfield renderer that is ready to draw, with its opacity buffer
    in step with its opacity array. *)
Definition twinkling (this : Sample.t) (w : World) : Prop :=
  exists p vertices alphas opacities,
    Sample.device this = Some the_device /\
    Sample.context this = Some the_context /\
    Sample.pipeline this = Some p /\
    Sample.vertexBuffer this = Some vertices /\
    Sample.opacityBuffer this = Some alphas /\
    Sample.starOpacities this = Some opacities /\
    vertices <> alphas /\
    memory w !! alphas = Some opacities /\
    Forall (between 0 1) opacities.

(** A renderer and the browser timers it owns: none before the first
    [startTwinkling], and afterwards exactly the one in [intervalId]. *)
Definition owns_timers (this : Twinkle.t) (tm : Timers) : Prop :=
  (0 < next_timer tm)%nat /\
  match Twinkle.intervalId this with
  | None => active tm = ∅
  | Some id =>
      (0 < id < next_timer tm)%nat /\ exists interval, active tm = {[id := interval]}
  end.

(** [startTwinkling] called once per element of [intervals], in order. *)
Definition start_all (intervals : list number) (this : Twinkle.t) (tm : Timers)
    : Twinkle.t * Timers :=
  fold_left (fun s interval => Twinkle.startTwinkling interval s.1 s.2)
            intervals (this, tm).

(** A twinkling renderer with three stars, ready to draw. *)
Definition three_stars : Twinkle.t :=
  {| Twinkle.device := Some the_device;
     Twinkle.context := Some the_context;
     Twinkle.pipeline := Some {| primitive_topology := point_list;
                                 arrayStrides := [8%nat] |};
     Twinkle.vertexBuffer := Some 0%nat;
     Twinkle.intervalId := None;
     Twinkle.starOpacities := Some [Fin 0; Fin 1; Fin (1 # 4)] |}.

(** * Properties *)

(** ** Arithmetic of the embedded numbers *)

Lemma Qle_bool_true p q : Qle_bool p q = true <-> p <= q.
Proof. apply Qle_bool_iff. Qed.

Lemma Qle_bool_false p q : Qle_bool p q = false <-> q < p.
Proof.
  split; intros H.
  - apply Qnot_le_lt. intros Hle. apply Qle_bool_iff in Hle. congruence.
  - destruct (Qle_bool p q) eqn:E; [|reflexivity].
    apply Qle_bool_iff in E. lra.
Qed.

Lemma Qeq_bool_true p q : Qeq_bool p q = true <-> p == q.
Proof. apply Qeq_bool_iff. Qed.

Lemma Qeq_bool_false p q : Qeq_bool p q = false <-> ~ p == q.
Proof.
  split.
  - intros H Heq. apply Qeq_bool_iff in Heq. congruence.
  - intros H. destruct (Qeq_bool p q) eqn:E; [|reflexivity].
    apply Qeq_bool_iff in E. contradiction.
Qed.

(** Two finite results are the same number as soon as they are equal
    rationals. *)
Lemma fin_ext p q : p == q -> fin p = fin q.
Proof. intros H. unfold fin. f_equal. by apply Qred_complete. Qed.

(** Case analysis over the numbers in the context: every comparison of
    rationals in the goal is split into its two outcomes, which [lra]
    then uses. *)
Ltac split_Qle :=
  repeat (cbn; match goal with
    | |- context [Qle_bool ?p ?q] =>
        let E := fresh "E" in
        destruct (Qle_bool p q) eqn:E;
        [apply Qle_bool_true in E | apply Qle_bool_false in E]
    | |- context [Qeq_bool ?p ?q] =>
        let E := fresh "E" in
        destruct (Qeq_bool p q) eqn:E;
        [apply Qeq_bool_true in E | apply Qeq_bool_false in E]
    end).

Ltac num_cases :=
  unfold nle;
  repeat match goal with a : number |- _ => destruct a end;
  split_Qle; cbn; intros;
  try discriminate; repeat split; try reflexivity;
  try (exfalso; lra).

Lemma nle_refl a : is_nan a = false -> nle a a.
Proof. num_cases. Qed.

Lemma nle_trans a b c : nle a b -> nle b c -> nle a c.
Proof. num_cases. Qed.

Lemma nle_antisym a b : nle a b -> nle b a -> neqb a b = true.
Proof. num_cases. Qed.

Lemma neqb_not_nan a b : neqb a b = true -> is_nan a = false /\ is_nan b = false.
Proof. num_cases. Qed.

Lemma nle_of_neqb a b c : neqb a b = true -> nle c a -> nle c b.
Proof. num_cases. Qed.

Lemma Math_min_glb a b c : nle c (Math_min a b) -> nle c a /\ nle c b.
Proof. num_cases. Qed.

Lemma Math_max_lub a b c : nle (Math_max a b) c -> nle a c /\ nle b c.
Proof. num_cases. Qed.

Lemma Math_min_max_ordered a b c :
  is_nan c = false -> nle a b -> nle (Math_min a c) (Math_max b c).
Proof. num_cases. Qed.

Lemma Math_min_PInf a : Math_min PInf a = a.
Proof. by destruct a. Qed.

Lemma Math_max_NInf a : Math_max NInf a = a.
Proof. by destruct a. Qed.

(** ** Point collection *)

Section Collection.
Import ShallowTable.

Lemma visit_tile_unusable a tile : usable tile = false -> visit_tile a tile = a.
Proof.
  unfold usable, visit_tile. intros H.
  destruct (hasLoadedColumn tile "x"), (hasLoadedColumn tile "y");
    cbn in *; congruence.
Qed.

Lemma visit_tile_usable a tile :
  usable tile = true ->
  visit_tile a tile = fold_left visit_row (record_batch tile) a.
Proof.
  unfold usable, visit_tile. intros H.
  destruct (hasLoadedColumn tile "x"), (hasLoadedColumn tile "y");
    cbn in *; congruence.
Qed.

Lemma visit_tiles_rows tiles : forall a,
  fold_left visit_tile tiles a = fold_left visit_row (usable_rows tiles) a.
Proof.
  induction tiles as [|tile tiles IH]; intros a; [reflexivity|].
  cbn [fold_left]. unfold usable_rows. cbn [List.filter].
  destruct (usable tile) eqn:U.
  - rewrite visit_tile_usable by exact U.
    cbn [map concat]. rewrite fold_left_app. apply IH.
  - rewrite visit_tile_unusable by exact U. apply IH.
Qed.

Lemma visit_rows_fold rows : forall a,
  fold_left visit_row rows a =
  {| minX := fold_left Math_min (map row_x rows) (minX a);
     minY := fold_left Math_min (map row_y rows) (minY a);
     maxX := fold_left Math_max (map row_x rows) (maxX a);
     maxY := fold_left Math_max (map row_y rows) (maxY a);
     pts := pts a ++ map point_of_row rows |}.
Proof.
  induction rows as [|row rows IH]; intros a.
  - destruct a; cbn. by rewrite app_nil_r.
  - cbn [fold_left map]. rewrite IH. cbn.
    by rewrite <- app_assoc.
Qed.

Lemma fold_min_max_ordered xs : forall lo hi,
  Forall not_nan xs -> nle lo hi ->
  nle (fold_left Math_min xs lo) (fold_left Math_max xs hi).
Proof.
  induction xs as [|x xs IH]; intros lo hi Hxs Hle; [exact Hle|].
  inversion Hxs; subst. cbn [fold_left].
  apply IH; [assumption|]. by apply Math_min_max_ordered.
Qed.

Lemma fold_min_max_nonempty xs :
  xs <> [] -> Forall not_nan xs ->
  nle (fold_left Math_min xs PInf) (fold_left Math_max xs NInf).
Proof.
  destruct xs as [|x xs]; [congruence|]. intros _ Hxs.
  inversion Hxs; subst. cbn [fold_left].
  rewrite Math_min_PInf, Math_max_NInf.
  apply fold_min_max_ordered; [assumption|]. by apply nle_refl.
Qed.

Lemma fold_min_lower xs : forall lo,
  not_nan (fold_left Math_min xs lo) ->
  nle (fold_left Math_min xs lo) lo /\
  Forall (nle (fold_left Math_min xs lo)) xs.
Proof.
  induction xs as [|x xs IH]; intros lo Hn; cbn [fold_left] in *.
  - split; [by apply nle_refl | constructor].
  - destruct (IH _ Hn) as [H1 H2].
    apply Math_min_glb in H1 as [H1 H3].
    split; [assumption | by constructor].
Qed.

Lemma fold_max_upper xs : forall hi,
  not_nan (fold_left Math_max xs hi) ->
  nle hi (fold_left Math_max xs hi) /\
  Forall (fun x => nle x (fold_left Math_max xs hi)) xs.
Proof.
  induction xs as [|x xs IH]; intros hi Hn; cbn [fold_left] in *.
  - split; [by apply nle_refl | constructor].
  - destruct (IH _ Hn) as [H1 H2].
    apply Math_max_lub in H1 as [H1 H3].
    split; [assumption | by constructor].
Qed.

(** What a successful [collectPoints] leaves in the receiver. *)
Lemma collectPoints_ready this :
  ready (deeptable this) = true ->
  let rows := usable_rows (visited (deeptable this)) in
  collectPoints this =
  (Returned (map point_of_row rows),
   {| points := map point_of_row rows;
      deeptable := deeptable this;
      bounds := Some
        {| Bounds.min := Vec2.new (fold_left Math_min (map row_x rows) PInf)
                                  (fold_left Math_min (map row_y rows) PInf);
           Bounds.max := Vec2.new (fold_left Math_max (map row_x rows) NInf)
                                  (fold_left Math_max (map row_y rows) NInf)
        |} |}).
Proof.
  intros Hready rows. unfold collectPoints. rewrite Hready. cbn [negb].
  rewrite visit_tiles_rows, visit_rows_fold. reflexivity.
Qed.

Lemma length_usable_rows tiles :
  length (usable_rows tiles) =
  sum_list (map (fun tile => length (record_batch tile))
                (List.filter usable tiles)).
Proof.
  unfold usable_rows.
  induction (List.filter usable tiles) as [|tile l IH]; [reflexivity|].
  cbn. rewrite length_app. by rewrite IH.
Qed.

Lemma usable_rows_nil tiles :
  Forall (fun tile => usable tile = false \/ record_batch tile = []) tiles ->
  usable_rows tiles = [].
Proof.
  unfold usable_rows. induction 1 as [|tile tiles H _ IH]; [reflexivity|].
  cbn [List.filter]. destruct H as [H|H].
  - rewrite H. exact IH.
  - destruct (usable tile); [|exact IH]. cbn [map concat]. by rewrite H, IH.
Qed.

(** C2, as stated, fails: a tile with both columns loaded and an empty
    record batch is a usable tile, yet the bounds stay at the swapped
    limits, so [min.x <= max.x] is false; and one usable row with a [NaN]
    coordinate makes both limits [NaN], which compare false as well. *)
Lemma collectPoints_usable_tile_unordered :
  (exists tile, tile ∈ visited empty_tile /\ usable tile = true) /\
  bounds (collectPoints (constructor empty_tile)).2 = Some limits /\
  nleb (Vec2.x (Bounds.min limits)) (Vec2.x (Bounds.max limits)) = false /\
  (exists tile, tile ∈ visited nan_tile /\ usable tile = true) /\
  (exists b, bounds (collectPoints (constructor nan_tile)).2 = Some b /\
             nleb (Vec2.x (Bounds.min b)) (Vec2.x (Bounds.max b)) = false).
Proof.
  split; [|split; [|split; [|split]]].
  - eexists. split; [apply list_elem_of_here | by vm_compute].
  - by vm_compute.
  - reflexivity.
  - eexists. split; [apply list_elem_of_here | by vm_compute].
  - eexists. split; by vm_compute.
Qed.

(** C2 (amended): after a successful [collectPoints] the collected points
    are the rows of exactly the tiles with both columns loaded, in order,
    so their number is the sum of the row counts of those tiles and a tile
    missing a column leaves the accumulator as it was; when at least one
    row was collected and no collected coordinate is [NaN], the bounds
    satisfy [min.x <= max.x] and [min.y <= max.y]. *)
Theorem collectPoints_count_and_bounds (this : t) :
  ready (deeptable this) = true ->
  let tiles := visited (deeptable this) in
  let this' := (collectPoints this).2 in
  (collectPoints this).1 = Returned (points this') /\
  length (points this') =
    sum_list (map (fun tile => length (record_batch tile))
                  (List.filter usable tiles)) /\
  points this' = map point_of_row (usable_rows tiles) /\
  (forall a tile, usable tile = false -> visit_tile a tile = a) /\
  (usable_rows tiles <> [] ->
   Forall (fun row => not_nan (row_x row) /\ not_nan (row_y row))
          (usable_rows tiles) ->
   exists b, bounds this' = Some b /\ ordered b).
Proof.
  intros Hready tiles this'. subst this'.
  rewrite (collectPoints_ready this Hready). cbn [fst snd points bounds].
  fold tiles. split; [reflexivity|]. split; [|split; [reflexivity|split]].
  - rewrite length_map. apply length_usable_rows.
  - intros a tile. apply visit_tile_unusable.
  - intros Hne Hnan. eexists. split; [reflexivity|].
    split; cbn; apply fold_min_max_nonempty.
    + destruct (usable_rows tiles); [congruence | discriminate].
    + apply Forall_map. eapply Forall_impl; [exact Hnan|]. by intros ? [? ?].
    + destruct (usable_rows tiles); [congruence | discriminate].
    + apply Forall_map. eapply Forall_impl; [exact Hnan|]. by intros ? [? ?].
Qed.

Lemma collectPoints_count_and_bounds_witness :
  length (points (collectPoints (constructor three_tiles)).2) = 3%nat /\
  exists b, bounds (collectPoints (constructor three_tiles)).2 = Some b /\
            ordered b.
Proof.
  destruct (collectPoints_count_and_bounds (constructor three_tiles) eq_refl)
    as (_ & Hlen & _ & _ & Hb).
  split; [exact Hlen|]. apply Hb.
  - vm_compute. discriminate.
  - vm_compute. repeat constructor.
Defined.

(** C5: when no usable point is found (every tile lacks a column or has
    no row), [collectPoints] returns normally with no point, and the
    bounds it stores, which [getBounds] then hands out, are the
    uninitialised limits: [min = (+inf, +inf)], [max = (-inf, -inf)]. *)
Theorem collectPoints_no_points_limits (this : t) :
  ready (deeptable this) = true ->
  Forall (fun tile => usable tile = false \/ record_batch tile = [])
         (visited (deeptable this)) ->
  collectPoints this =
    (Returned [],
     {| points := []; deeptable := deeptable this; bounds := Some limits |}) /\
  getBounds (collectPoints this).2 = Returned limits /\
  ~ ordered limits.
Proof.
  intros Hready Hnone.
  rewrite (collectPoints_ready this Hready).
  rewrite (usable_rows_nil _ Hnone). cbn.
  split; [reflexivity|]. split; [reflexivity|].
  intros [H _]. discriminate H.
Qed.

Lemma collectPoints_no_points_limits_witness :
  getBounds (collectPoints (constructor empty_tile)).2 = Returned limits.
Proof.
  refine (proj1 (proj2
    (collectPoints_no_points_limits (constructor empty_tile) eq_refl _))).
  constructor; [right; reflexivity | constructor].
Defined.

(** C9: [getBounds] throws "Must call collectPoints first" on a fresh
    table and on every table whose bounds were never set, a failed
    [collectPoints] does not change that, and after a [collectPoints] that
    returned, [getBounds] returns the bounds that pass computed. *)
Theorem getBounds_requires_collectPoints :
  (forall dt,
     getBounds (constructor dt) = Threw (Error "Must call collectPoints first")) /\
  (forall this,
     bounds this = None ->
     getBounds this = Threw (Error "Must call collectPoints first") /\
     forall e this',
       collectPoints this = (Threw e, this') ->
       getBounds this' = Threw (Error "Must call collectPoints first")) /\
  (forall this ps this',
     collectPoints this = (Returned ps, this') ->
     let a := fold_left visit_tile (visited (deeptable this)) acc0 in
     getBounds this' =
       Returned {| Bounds.min := Vec2.new (minX a) (minY a);
                   Bounds.max := Vec2.new (maxX a) (maxY a) |}).
Proof.
  split; [reflexivity|]. split.
  - intros this Hnone. unfold getBounds. rewrite Hnone.
    split; [reflexivity|]. intros e this'. unfold collectPoints.
    destruct (ready (deeptable this)); cbn; intros [= <- <-] || intros [=].
    by rewrite Hnone.
  - intros this ps this'. unfold collectPoints.
    destruct (ready (deeptable this)); cbn; [|intros [=]].
    intros [= <- <-]. reflexivity.
Qed.

Lemma getBounds_requires_collectPoints_witness :
  getBounds (collectPoints (constructor three_tiles)).2 =
    Returned {| Bounds.min := Vec2.new (Fin 0) (Fin 1);
                Bounds.max := Vec2.new (Fin 5) (Fin 3) |}.
Proof.
  destruct getBounds_requires_collectPoints as (_ & _ & H).
  exact (H (constructor three_tiles) _ _ eq_refl).
Defined.

End Collection.

(** ** Normalisation *)

Section Normalisation.
Import ShallowTable.

Lemma Qred_eq_zero p : p == 0 -> Qred p = 0.
Proof. intros H. by apply (Qred_complete p 0). Qed.

Lemma threshold_large : 3 < overflow_threshold.
Proof. by vm_compute. Qed.

(** Below the threshold nothing overflows. *)
Lemma overflow_fin q :
  - overflow_threshold < q < overflow_threshold -> overflow (fin q) = fin q.
Proof.
  intros [H1 H2]. unfold overflow, fin.
  assert (Qle_bool overflow_threshold (Qred q) = false) as ->
    by (apply Qle_bool_false; by rewrite Qred_correct).
  assert (Qle_bool (Qred q) (- overflow_threshold) = false) as ->
    by (apply Qle_bool_false; by rewrite Qred_correct).
  reflexivity.
Qed.

Lemma unit_quotient v lo hi :
  lo <= v <= hi -> ~ hi == lo -> 0 <= (v - lo) / (hi - lo) <= 1.
Proof.
  intros [H1 H2] Hne. assert (0 < hi - lo) as Hd by lra. split.
  - apply Qle_shift_div_l; [exact Hd | lra].
  - apply Qle_shift_div_r; [exact Hd | lra].
Qed.

(** The formula, when neither difference overflows and the quotient is
    at most one in magnitude. *)
Lemma normalizeCoordinate_finite v lo hi :
  ~ hi == lo ->
  - overflow_threshold < v - lo < overflow_threshold ->
  - overflow_threshold < hi - lo < overflow_threshold ->
  -1 <= (v - lo) / (hi - lo) <= 1 ->
  normalizeCoordinate (Fin v) (Fin lo) (Fin hi) =
  fin ((v - lo) / (hi - lo) * 2 - 1).
Proof.
  intros Hne Hv Hd Hq. pose proof threshold_large as HT.
  unfold normalizeCoordinate, sub_double at 2 3. cbn [nsub].
  rewrite !overflow_fin by assumption.
  unfold div_double, fin at 1 2. cbn [ndiv].
  assert (Qeq_bool (Qred (hi - lo)) 0 = false) as ->.
  { apply Qeq_bool_false. rewrite Qred_correct. lra. }
  rewrite overflow_fin by (rewrite !Qred_correct; lra).
  unfold mul_double, fin at 1. cbn [nmul].
  rewrite overflow_fin by (rewrite !Qred_correct; lra).
  unfold sub_double, fin at 1. cbn [nsub].
  rewrite overflow_fin by (rewrite !Qred_correct; lra).
  apply fin_ext. by rewrite !Qred_correct.
Qed.

Lemma normalizeCoordinate_within v lo hi :
  lo <= v <= hi -> ~ hi == lo -> hi - lo < overflow_threshold ->
  normalizeCoordinate (Fin v) (Fin lo) (Fin hi) =
  fin ((v - lo) / (hi - lo) * 2 - 1).
Proof.
  intros Hv Hne Hd. pose proof threshold_large as HT.
  pose proof (unit_quotient v lo hi Hv Hne) as Hq.
  apply normalizeCoordinate_finite; [exact Hne|lra|lra|lra].
Qed.

Lemma normalizeCoordinate_at_min v lo hi :
  v == lo -> ~ hi == lo ->
  - overflow_threshold < hi - lo < overflow_threshold ->
  normalizeCoordinate (Fin v) (Fin lo) (Fin hi) = Fin (-1).
Proof.
  intros Ev Hne Hd. pose proof threshold_large as HT.
  assert (~ hi - lo == 0) as Hnz by lra.
  assert ((v - lo) / (hi - lo) == 0) as Eq by (rewrite Ev; by field).
  rewrite normalizeCoordinate_finite; [|exact Hne|lra|exact Hd|rewrite Eq; lra].
  apply (fin_ext _ (-1)). rewrite Eq. lra.
Qed.

Lemma normalizeCoordinate_at_max v lo hi :
  v == hi -> ~ hi == lo ->
  - overflow_threshold < hi - lo < overflow_threshold ->
  normalizeCoordinate (Fin v) (Fin lo) (Fin hi) = Fin 1.
Proof.
  intros Ev Hne Hd. pose proof threshold_large as HT.
  assert (~ hi - lo == 0) as Hnz by lra.
  assert ((v - lo) / (hi - lo) == 1) as Eq by (rewrite Ev; by field).
  rewrite normalizeCoordinate_finite; [|exact Hne|lra|exact Hd|rewrite Eq; lra].
  apply (fin_ext _ 1). rewrite Eq. lra.
Qed.

Lemma normalizeCoordinate_at_midpoint v lo hi :
  v == (lo + hi) / 2 -> ~ hi == lo ->
  - overflow_threshold < hi - lo < overflow_threshold ->
  normalizeCoordinate (Fin v) (Fin lo) (Fin hi) = Fin 0.
Proof.
  intros Ev Hne Hd. pose proof threshold_large as HT.
  assert (~ hi - lo == 0) as Hnz by lra.
  assert ((v - lo) / (hi - lo) == 1 # 2) as Eq by (rewrite Ev; by field).
  assert (v - lo == (hi - lo) * (1 # 2)) as Ed by (rewrite Ev; field).
  rewrite normalizeCoordinate_finite;
    [|exact Hne|rewrite Ed; lra|exact Hd|rewrite Eq; lra].
  apply (fin_ext _ 0). rewrite Eq. lra.
Qed.

Lemma overflow_zero : overflow (Fin 0) = Fin 0.
Proof. by vm_compute. Qed.

Lemma normalizeCoordinate_degenerate v lo hi :
  neqb hi lo = true -> neqb v lo = true ->
  normalizeCoordinate v lo hi = NaN.
Proof.
  unfold normalizeCoordinate.
  destruct v as [v| | |], lo as [lo| | |], hi as [hi| | |];
    cbn [neqb]; try discriminate; try reflexivity.
  intros H1%Qeq_bool_true H2%Qeq_bool_true.
  unfold sub_double at 2 3. cbn [nsub]. unfold fin.
  rewrite (Qred_eq_zero (v - lo)) by lra.
  rewrite (Qred_eq_zero (hi - lo)) by lra.
  rewrite overflow_zero. reflexivity.
Qed.

Lemma forEach_fill b ps : forall i pre,
  length pre = (i * 2)%nat ->
  forEach (Some b) ps i (pre ++ replicate (length ps * 2) (Fin 0)) =
  Returned (pre ++ concat (map (normalized_pair b) ps)).
Proof.
  induction ps as [|p ps IH]; intros i pre Hlen.
  - by cbn.
  - cbn [forEach length Nat.mul replicate map concat].
    rewrite insert_app_r_alt by lia.
    replace (i * 2 - length pre)%nat with 0%nat by lia. cbn [insert list_insert].
    rewrite insert_app_r_alt by lia.
    replace (i * 2 + 1 - length pre)%nat with 1%nat by lia.
    cbn [insert list_insert].
    specialize (IH (S i) (pre ++ normalized_pair b p)).
    rewrite <- !app_assoc in IH. cbn [normalized_pair app] in IH |- *.
    apply IH. rewrite length_app. cbn. lia.
Qed.

Lemma getNormalizedPointsArray_pairs this b :
  bounds this = Some b ->
  getNormalizedPointsArray this =
  Returned (concat (map (normalized_pair b) (points this))).
Proof.
  intros Hb. unfold getNormalizedPointsArray. rewrite Hb.
  apply (forEach_fill b (points this) 0 []). reflexivity.
Qed.

Lemma length_pairs b ps :
  length (concat (map (normalized_pair b) ps)) = (length ps * 2)%nat.
Proof. induction ps as [|p ps IH]; cbn; [reflexivity | by rewrite IH]. Qed.

Lemma lookup_pairs b ps : forall i p,
  ps !! i = Some p ->
  concat (map (normalized_pair b) ps) !! (i * 2)%nat =
    Some (normalizeCoordinate (Vec2.x (position p))
            (Vec2.x (Bounds.min b)) (Vec2.x (Bounds.max b))) /\
  concat (map (normalized_pair b) ps) !! (i * 2 + 1)%nat =
    Some (normalizeCoordinate (Vec2.y (position p))
            (Vec2.y (Bounds.min b)) (Vec2.y (Bounds.max b))).
Proof.
  induction ps as [|q ps IH]; intros [|i] p Hp; try discriminate.
  - injection Hp as ->. by cbn.
  - cbn in Hp. destruct (IH i p Hp) as [H1 H2].
    cbn [map concat normalized_pair app]. split.
    + replace (S i * 2)%nat with (S (S (i * 2))) by lia. exact H1.
    + replace (S i * 2 + 1)%nat with (S (S (i * 2 + 1))) by lia. exact H2.
Qed.

(** C1, as stated, fails at bounds of nonzero extent whose extent is not a
    finite double.  With the collected coordinates [-2^1023] and [2^1023]
    the difference [max - min] overflows to [Infinity]: the point at
    [bounds.max] is stored as [(NaN, 1)] and the midpoint as [(-1, 0)].
    With a row at [-Infinity] the point at [bounds.min] is stored as
    [(-1, NaN)]. *)
Lemma normalize_fails_beyond_double_range :
  (bounds (collectPoints (constructor wide_table)).2 =
     Some {| Bounds.min := Vec2.new (Fin (inject_Z (- 2 ^ 1023))) (Fin 0);
             Bounds.max := Vec2.new (Fin (inject_Z (2 ^ 1023))) (Fin 1) |} /\
   points (collectPoints (constructor wide_table)).2 =
     [ {| position := Vec2.new (Fin (inject_Z (- 2 ^ 1023))) (Fin 0) |};
       {| position := Vec2.new (Fin (inject_Z (2 ^ 1023))) (Fin 1) |};
       {| position := Vec2.new (Fin 0) (Fin (1 # 2)) |} ] /\
   getNormalizedPointsArray (collectPoints (constructor wide_table)).2 =
     Returned [Fin (-1); Fin (-1); NaN; Fin 1; Fin (-1); Fin 0]) /\
  (bounds (collectPoints (constructor infinite_row)).2 =
     Some {| Bounds.min := Vec2.new (Fin 0) NInf;
             Bounds.max := Vec2.new (Fin 1) (Fin 0) |} /\
   points (collectPoints (constructor infinite_row)).2 =
     [ {| position := Vec2.new (Fin 0) NInf |};
       {| position := Vec2.new (Fin 1) (Fin 0) |} ] /\
   getNormalizedPointsArray (collectPoints (constructor infinite_row)).2 =
     Returned [Fin (-1); NaN; Fin 1; NaN]).
Proof. repeat split; by vm_compute. Qed.

(** C1 (amended): with finite bounds whose extent on each axis is nonzero
    and below the overflow threshold of a double,
    [getNormalizedPointsArray] returns an array of two entries per point
    in which a point [(vx, vy)] at index [i] that lies within the bounds
    on an axis is stored, on that axis, as
    [(v - min) / (max - min) * 2 - 1]; hence a point at [bounds.min] is
    stored as [(-1, -1)], a point at [bounds.max] as [(1, 1)], and the
    midpoint of the bounds as [(0, 0)]. *)
Theorem normalize_formula_and_anchors
    (this : t) (b : Bounds.t) (lox loy hix hiy : Q) :
  bounds this = Some b ->
  Bounds.min b = Vec2.new (Fin lox) (Fin loy) ->
  Bounds.max b = Vec2.new (Fin hix) (Fin hiy) ->
  ~ hix == lox -> ~ hiy == loy ->
  - overflow_threshold < hix - lox < overflow_threshold ->
  - overflow_threshold < hiy - loy < overflow_threshold ->
  exists array,
    getNormalizedPointsArray this = Returned array /\
    length array = (length (points this) * 2)%nat /\
    forall i vx vy,
      points this !! i = Some {| position := Vec2.new (Fin vx) (Fin vy) |} ->
      (lox <= vx <= hix ->
       array !! (i * 2)%nat = Some (fin ((vx - lox) / (hix - lox) * 2 - 1))) /\
      (loy <= vy <= hiy ->
       array !! (i * 2 + 1)%nat = Some (fin ((vy - loy) / (hiy - loy) * 2 - 1))) /\
      (vx == lox -> vy == loy ->
       array !! (i * 2)%nat = Some (Fin (-1)) /\
       array !! (i * 2 + 1)%nat = Some (Fin (-1))) /\
      (vx == hix -> vy == hiy ->
       array !! (i * 2)%nat = Some (Fin 1) /\
       array !! (i * 2 + 1)%nat = Some (Fin 1)) /\
      (vx == (lox + hix) / 2 -> vy == (loy + hiy) / 2 ->
       array !! (i * 2)%nat = Some (Fin 0) /\
       array !! (i * 2 + 1)%nat = Some (Fin 0)).
Proof.
  intros Hb Hmin Hmax Hx Hy Hdx Hdy. eexists.
  split; [by apply getNormalizedPointsArray_pairs|].
  split; [apply length_pairs|].
  intros i vx vy Hp.
  destruct (lookup_pairs b (points this) i _ Hp) as [H1 H2].
  rewrite Hmin, Hmax in H1, H2. cbn in H1, H2. rewrite H1, H2.
  split; [|split; [|split; [|split]]].
  - intros Hv. f_equal. apply normalizeCoordinate_within; [done|done|lra].
  - intros Hv. f_equal. apply normalizeCoordinate_within; [done|done|lra].
  - intros Ex Ey. split; f_equal; by apply normalizeCoordinate_at_min.
  - intros Ex Ey. split; f_equal; by apply normalizeCoordinate_at_max.
  - intros Ex Ey. split; f_equal; by apply normalizeCoordinate_at_midpoint.
Qed.

Lemma normalize_formula_and_anchors_witness :
  getNormalizedPointsArray anchors =
    Returned [Fin (-1); Fin (-1); Fin 1; Fin 1; Fin 0; Fin 0] /\
  exists array,
    getNormalizedPointsArray anchors = Returned array /\
    length array = 6%nat /\
    array !! 4%nat = Some (Fin 0) /\ array !! 5%nat = Some (Fin 0).
Proof.
  split; [by vm_compute|].
  destruct (normalize_formula_and_anchors anchors _ 0 10 4 30
              eq_refl eq_refl eq_refl) as (array & H1 & H2 & H3).
  - by vm_compute.
  - by vm_compute.
  - by vm_compute.
  - by vm_compute.
  - exists array. split; [exact H1|]. split; [exact H2|].
    destruct (H3 2%nat 2 20 eq_refl) as (_ & _ & _ & _ & Hmid).
    apply Hmid; by vm_compute.
Defined.

(** The bounds a successful [collectPoints] stores bracket every collected
    coordinate, so bounds of zero extent on the [x] axis force every
    collected [x] to equal the minimum. *)
Lemma fold_bounds_equal xs :
  neqb (fold_left Math_max xs NInf) (fold_left Math_min xs PInf) = true ->
  xs <> [] /\
  Forall (fun v => neqb v (fold_left Math_min xs PInf) = true) xs.
Proof.
  intros Heq. split.
  - intros ->. discriminate Heq.
  - destruct (neqb_not_nan _ _ Heq) as [Hhi Hlo].
    destruct (fold_min_lower xs PInf Hlo) as [_ Hmin].
    destruct (fold_max_upper xs NInf Hhi) as [_ Hmax].
    rewrite Forall_forall in Hmin, Hmax. apply Forall_forall. intros v Hv.
    apply nle_antisym; [|by apply Hmin].
    eapply nle_of_neqb; [exact Heq | by apply Hmax].
Qed.

Lemma nsub_equal_finite hi lo :
  neqb hi lo = true -> is_finite lo = true -> nsub hi lo = Fin 0.
Proof.
  destruct hi as [hi| | |], lo as [lo| | |]; cbn; try discriminate.
  intros H%Qeq_bool_true _. unfold fin. f_equal.
  apply Qred_eq_zero. lra.
Qed.

Lemma entries_x_NaN b rows :
  neqb (Vec2.x (Bounds.max b)) (Vec2.x (Bounds.min b)) = true ->
  Forall (fun v => neqb v (Vec2.x (Bounds.min b)) = true) (map row_x rows) ->
  forall i, (i < length rows)%nat ->
    concat (map (normalized_pair b) (map point_of_row rows)) !! (i * 2)%nat
    = Some NaN.
Proof.
  intros Heq Hall i Hi.
  destruct (lookup_lt_is_Some_2 rows i Hi) as [row Hrow].
  assert (map point_of_row rows !! i = Some (point_of_row row)) as Hp
    by (by rewrite list_lookup_fmap, Hrow).
  destruct (lookup_pairs b _ i _ Hp) as [H1 _]. rewrite H1. f_equal.
  apply normalizeCoordinate_degenerate; [exact Heq|]. cbn.
  rewrite Forall_forall in Hall. apply Hall.
  apply list_elem_of_fmap. exists row. split; [reflexivity|].
  by eapply list_elem_of_lookup_2.
Qed.

Lemma entries_y_NaN b rows :
  neqb (Vec2.y (Bounds.max b)) (Vec2.y (Bounds.min b)) = true ->
  Forall (fun v => neqb v (Vec2.y (Bounds.min b)) = true) (map row_y rows) ->
  forall i, (i < length rows)%nat ->
    concat (map (normalized_pair b) (map point_of_row rows)) !! (i * 2 + 1)%nat
    = Some NaN.
Proof.
  intros Heq Hall i Hi.
  destruct (lookup_lt_is_Some_2 rows i Hi) as [row Hrow].
  assert (map point_of_row rows !! i = Some (point_of_row row)) as Hp
    by (by rewrite list_lookup_fmap, Hrow).
  destruct (lookup_pairs b _ i _ Hp) as [_ H2]. rewrite H2. f_equal.
  apply normalizeCoordinate_degenerate; [exact Heq|]. cbn.
  rewrite Forall_forall in Hall. apply Hall.
  apply list_elem_of_fmap. exists row. split; [reflexivity|].
  by eapply list_elem_of_lookup_2.
Qed.

(** C7: when the bounds stored by [collectPoints] have [max === min] on an
    axis, [getNormalizedPointsArray] returns normally (it does not throw),
    at least one point was collected, and every entry of that axis in the
    returned buffer is [NaN]; for a finite minimum the divisor
    [max - min] is zero. *)
Theorem normalize_zero_extent_NaN (table : t) (b : Bounds.t) :
  ready (deeptable table) = true ->
  let this := (collectPoints table).2 in
  bounds this = Some b ->
  (neqb (Vec2.x (Bounds.max b)) (Vec2.x (Bounds.min b)) = true ->
   exists array,
     getNormalizedPointsArray this = Returned array /\
     points this <> [] /\
     (forall i, (i < length (points this))%nat ->
                array !! (i * 2)%nat = Some NaN) /\
     (is_finite (Vec2.x (Bounds.min b)) = true ->
      nsub (Vec2.x (Bounds.max b)) (Vec2.x (Bounds.min b)) = Fin 0)) /\
  (neqb (Vec2.y (Bounds.max b)) (Vec2.y (Bounds.min b)) = true ->
   exists array,
     getNormalizedPointsArray this = Returned array /\
     points this <> [] /\
     (forall i, (i < length (points this))%nat ->
                array !! (i * 2 + 1)%nat = Some NaN) /\
     (is_finite (Vec2.y (Bounds.min b)) = true ->
      nsub (Vec2.y (Bounds.max b)) (Vec2.y (Bounds.min b)) = Fin 0)).
Proof.
  intros Hready this Hb. subst this.
  rewrite (collectPoints_ready table Hready) in *. cbn [snd bounds points] in *.
  set (rows := usable_rows (visited (deeptable table))) in *.
  injection Hb as Hb.
  split; intros Heq.
  - assert (Hfold := Heq). rewrite <- Hb in Hfold. cbn in Hfold.
    destruct (fold_bounds_equal _ Hfold) as [Hne Hall].
    exists (concat (map (normalized_pair b) (map point_of_row rows))).
    split; [apply getNormalizedPointsArray_pairs; cbn; by rewrite Hb|].
    split; [by destruct rows|].
    split; [|by apply nsub_equal_finite].
    intros i Hi. rewrite length_map in Hi.
    apply entries_x_NaN; [exact Heq| |exact Hi]. by rewrite <- Hb.
  - assert (Hfold := Heq). rewrite <- Hb in Hfold. cbn in Hfold.
    destruct (fold_bounds_equal _ Hfold) as [Hne Hall].
    exists (concat (map (normalized_pair b) (map point_of_row rows))).
    split; [apply getNormalizedPointsArray_pairs; cbn; by rewrite Hb|].
    split; [by destruct rows|].
    split; [|by apply nsub_equal_finite].
    intros i Hi. rewrite length_map in Hi.
    apply entries_y_NaN; [exact Heq| |exact Hi]. by rewrite <- Hb.
Qed.

Lemma normalize_zero_extent_NaN_witness :
  exists array,
    getNormalizedPointsArray (collectPoints (constructor flat_tile)).2 =
      Returned array /\
    array !! 1%nat = Some NaN /\ array !! 3%nat = Some NaN.
Proof.
  destruct (normalize_zero_extent_NaN (constructor flat_tile) _ eq_refl eq_refl)
    as [_ Hy].
  destruct (Hy eq_refl) as (array & H1 & _ & H2 & _).
  exists array. split; [exact H1|].
  split; [apply (H2 0%nat) | apply (H2 1%nat)]; vm_compute; lia.
Defined.

End Normalisation.

(** ** The point-list renderer *)

(** C4, as stated, fails on the point-list renderer of part_002: its
    guard only looks at the vertex buffer and the vertex count.  After an
    [initialize] that stopped at the missing canvas context, a
    [setDataArray] with one point succeeds, and [render] then passes the
    guard and throws a [TypeError] on [this.context.getCurrentTexture()]. *)
Lemma render_point_list_throws_without_context :
  PointList.initialize no_context PointList.constructor =
    (Threw (Error "Failed to get WebGPU context"),
     {| PointList.device := Some the_device; PointList.context := None;
        PointList.pipeline := None; PointList.vertexBuffer := None;
        PointList.vertexCount := Fin 0 |}) /\
  PointList.context loaded_without_context.1 = None /\
  PointList.vertexBuffer loaded_without_context.1 = Some 0%nat /\
  PointList.render loaded_without_context.1 loaded_without_context.2 =
    (Threw TypeError, loaded_without_context.1, loaded_without_context.2).
Proof. repeat split. Qed.

Lemma draw_calls_submit c w : draw_calls (submit c w) = draw_calls w ++ draws_of c.
Proof.
  unfold draw_calls, submit. cbn. rewrite map_app, concat_app. cbn.
  by rewrite app_nil_r.
Qed.

(** C4 (amended): the starfield renderer of webgpu_sample.ts returns at
    once, with the renderer and the world (device memory, submissions,
    console) unchanged, whenever the device, the context, the pipeline,
    the vertex buffer, the opacity buffer or the opacity array is absent;
    the point-list renderer of part_002 returns without an exception and
    without a submission, the renderer unchanged and one warning on the
    console, whenever the vertex buffer is absent or the vertex count is
    zero. *)
Theorem render_not_ready_is_noop :
  (forall Math_random this w,
     Sample.device this = None \/ Sample.context this = None \/
     Sample.pipeline this = None \/ Sample.vertexBuffer this = None \/
     Sample.opacityBuffer this = None \/ Sample.starOpacities this = None ->
     Sample.render Math_random this w = (Returned (), this, w)) /\
  (forall this w,
     PointList.vertexBuffer this = None \/
     neqb (PointList.vertexCount this) (Fin 0) = true ->
     PointList.render this w =
       (Returned (), this, console_print warn "No vertices to render" w) /\
     submitted (PointList.render this w).2 = submitted w /\
     memory (PointList.render this w).2 = memory w).
Proof.
  split.
  - intros Math_random this w H. unfold Sample.render.
    destruct (Sample.device this), (Sample.context this),
      (Sample.pipeline this), (Sample.vertexBuffer this),
      (Sample.opacityBuffer this), (Sample.starOpacities this);
      try reflexivity.
    destruct H as [H|[H|[H|[H|[H|H]]]]]; discriminate H.
  - intros this w H. unfold PointList.render.
    destruct (PointList.vertexBuffer this) as [buffer|]; [|done].
    destruct H as [H|H]; [discriminate H|]. by rewrite H.
Qed.

Lemma render_not_ready_is_noop_witness :
  Sample.render (fun _ => 1 # 2) Sample.constructor world0 =
    (Returned (), Sample.constructor, world0) /\
  submitted (PointList.render PointList.constructor world0).2 = [].
Proof.
  destruct render_not_ready_is_noop as [Hsample Hlist]. split.
  - apply Hsample. left. reflexivity.
  - apply (Hlist PointList.constructor world0). left. reflexivity.
Defined.

(** C10: given a null or empty array, [setDataArray] of the point-list
    renderer returns with the renderer unchanged (same vertex buffer, same
    vertex count) and the device memory untouched; only an error line
    reaches the console.  A following [render] therefore behaves as it
    would have before the call: it draws nothing when no data was ever
    set, and otherwise issues one draw of the vertex count set before. *)
Theorem setDataArray_empty_keeps_data
    (points : option (list number)) (this : PointList.t) (w : World) :
  points = None \/ points = Some [] ->
  let w' := console_print error "Received empty or null points array" w in
  PointList.setDataArray points this w = (Returned (), this, w') /\
  memory w' = memory w /\ submitted w' = submitted w /\
  (PointList.render this w').1 = (PointList.render this w).1 /\
  draw_calls (PointList.render this w').2 = draw_calls (PointList.render this w).2 /\
  (PointList.vertexBuffer this = None ->
   draw_calls (PointList.render this w').2 = draw_calls w) /\
  (forall buffer p,
     PointList.vertexBuffer this = Some buffer ->
     neqb (PointList.vertexCount this) (Fin 0) = false ->
     PointList.device this = Some the_device ->
     PointList.context this = Some the_context ->
     PointList.pipeline this = Some p ->
     draw_calls (PointList.render this w').2 =
       draw_calls w ++ [PointList.vertexCount this]).
Proof.
  intros Hpoints w'.
  split; [destruct Hpoints as [-> | ->]; reflexivity|].
  split; [reflexivity|]. split; [reflexivity|].
  unfold PointList.render.
  destruct (PointList.vertexBuffer this) as [buffer|] eqn:Hbuffer.
  - destruct (neqb (PointList.vertexCount this) (Fin 0)) eqn:Hcount.
    + repeat split; try done.
    + destruct (PointList.device this) as [[]|], (PointList.context this) as [[]|],
        (PointList.pipeline this) as [p|]; cbn;
        repeat split; try done.
      intros ? ? [= <-] _ _ _ [= <-]. by rewrite map_app, concat_app.
  - repeat split; try done.
Qed.

Lemma setDataArray_empty_keeps_data_witness :
  PointList.setDataArray (Some []) two_points.1 two_points.2 =
    (Returned (), two_points.1,
     console_print error "Received empty or null points array" two_points.2) /\
  draw_calls
    (PointList.render two_points.1
       (console_print error "Received empty or null points array" two_points.2)).2
  = [Fin 2].
Proof.
  destruct (setDataArray_empty_keeps_data (Some []) two_points.1 two_points.2)
    as (H1 & _ & _ & _ & _ & _ & H2); [by right|].
  split; [exact H1|].
  by apply (H2 0%nat {| primitive_topology := point_list; arrayStrides := [8%nat] |}).
Defined.

(** ** The starfield renderer: opacity animation *)

Section Twinkling.
Variable Math_random : nat -> Q.
Hypothesis random_range : forall k, 0 <= Math_random k < 1.

Lemma target_at_finite k :
  target_at Math_random k = fin ((5 # 100) + Math_random k * (95 # 100)).
Proof.
  unfold target_at. cbn [nmul nadd]. unfold fin at 1. cbn [nadd].
  apply fin_ext. by rewrite Qred_correct.
Qed.

Lemma between_fin lo hi q : lo <= q <= hi -> between lo hi (fin q).
Proof.
  intros [H1 H2]. unfold between, fin, betweenb.
  apply andb_true_intro; split; apply Qle_bool_true; by rewrite Qred_correct.
Qed.

Lemma between_inv lo hi a :
  between lo hi a -> exists q, a = Fin q /\ lo <= q <= hi.
Proof.
  destruct a as [q| | |]; try discriminate. unfold between, betweenb.
  intros [H1%Qle_bool_true H2%Qle_bool_true]%andb_prop. by exists q.
Qed.

Lemma target_between k : between (5 # 100) 1 (target_at Math_random k).
Proof using random_range.
  rewrite target_at_finite. apply between_fin.
  destruct (random_range k). lra.
Qed.

Lemma blend_finite c t :
  Sample.blend (Fin c) (Fin t) = fin (c + (t - c) * (4 # 10)).
Proof.
  unfold Sample.blend. cbn [nsub nmul]. unfold fin at 1 2. cbn [nmul nadd].
  unfold fin at 2. cbn [nadd].
  apply fin_ext. by rewrite !Qred_correct.
Qed.

Lemma blend_between c t :
  between 0 1 c -> between (5 # 100) 1 t -> between 0 1 (Sample.blend c t).
Proof.
  intros (qc & -> & Hc)%between_inv (qt & -> & Ht)%between_inv.
  rewrite blend_finite. apply between_fin. lra.
Qed.

Lemma twinkle_step ops w i :
  Sample.twinkle Math_random (ops, w) i =
  (<[i := Sample.blend (typed_get ops i)
            (target_at Math_random (random_calls w))]> ops,
   after_draws 1 w).
Proof. reflexivity. Qed.

(** The loop over the indices [s, s + n): each index is blended once,
    with the random number drawn at its own iteration, and nothing else
    changes. *)
Lemma twinkle_fold n : forall s ops w,
  let r := fold_left (Sample.twinkle Math_random) (seq s n) (ops, w) in
  r.2 = after_draws n w /\
  length r.1 = length ops /\
  (forall i, (i < s \/ s + n <= i)%nat -> r.1 !! i = ops !! i) /\
  (forall i c, (s <= i < s + n)%nat -> ops !! i = Some c ->
     r.1 !! i =
     Some (Sample.blend c (target_at Math_random (random_calls w + (i - s))))).
Proof.
  induction n as [|n IH]; intros s ops w.
  - cbn. repeat split; try done. by destruct w. intros; lia.
  - cbn [seq fold_left]. rewrite twinkle_step.
    specialize (IH (S s) (<[s:=Sample.blend (typed_get ops s)
                               (target_at Math_random (random_calls w))]> ops)
                   (after_draws 1 w)).
    cbn zeta in IH |- *. destruct IH as (Hw & Hlen & Hout & Hin).
    split; [|split; [|split]].
    + rewrite Hw. unfold after_draws. cbn. f_equal. lia.
    + by rewrite Hlen, length_insert.
    + intros i Hi. rewrite Hout by lia. apply list_lookup_insert_ne. lia.
    + intros i c Hi Hc. destruct (decide (i = s)) as [->|Hne].
      * rewrite Hout by lia. unfold typed_get. rewrite Hc. cbn.
        replace (s - s)%nat with 0%nat by lia. rewrite Nat.add_0_r.
        apply list_lookup_insert_eq. by eapply lookup_lt_Some.
      * rewrite (Hin i c); [|lia|by rewrite list_lookup_insert_ne].
        replace (random_calls (after_draws 1 w) + (i - S s))%nat
          with (random_calls w + (i - s))%nat; [reflexivity | cbn; lia].
Qed.

Lemma twinkle_fold_between n : forall s ops w,
  Forall (between 0 1) ops ->
  Forall (between 0 1)
    (fold_left (Sample.twinkle Math_random) (seq s n) (ops, w)).1.
Proof using random_range.
  induction n as [|n IH]; intros s ops w Hall; [exact Hall|].
  cbn [seq fold_left]. rewrite twinkle_step. apply IH.
  destruct (ops !! s) as [c|] eqn:Hc.
  - apply Forall_insert; [exact Hall|]. unfold typed_get. rewrite Hc. cbn.
    apply blend_between; [|apply target_between].
    rewrite Forall_forall in Hall. apply Hall. by eapply list_elem_of_lookup_2.
  - rewrite list_insert_ge; [exact Hall|]. by apply lookup_ge_None.
Qed.

Lemma updateOpacities_ready this w buffer ops :
  Sample.device this = Some the_device ->
  Sample.opacityBuffer this = Some buffer ->
  Sample.starOpacities this = Some ops ->
  let ops' := (fold_left (Sample.twinkle Math_random) (seq 0 1000) (ops, w)).1 in
  Sample.updateOpacities Math_random this w =
  (Returned (), Sample.set_starOpacities (Some ops') this,
   writeBuffer buffer ops' (after_draws 1000 w)).
Proof.
  intros Hd Hb Ho ops'. unfold Sample.updateOpacities. rewrite Hd, Hb, Ho.
  destruct (twinkle_fold 1000 0 ops w) as (Hw & _).
  subst ops'.
  destruct (fold_left (Sample.twinkle Math_random) (seq 0 1000) (ops, w))
    as [ops1 w1].
  cbn [fst snd] in *. by rewrite Hw.
Qed.

Lemma updateOpacities_not_ready this w :
  Sample.device this = None \/ Sample.opacityBuffer this = None \/
  Sample.starOpacities this = None ->
  Sample.updateOpacities Math_random this w = (Returned (), this, w).
Proof.
  intros H. unfold Sample.updateOpacities.
  destruct (Sample.device this), (Sample.opacityBuffer this),
    (Sample.starOpacities this); try reflexivity.
  destruct H as [H|[H|H]]; discriminate H.
Qed.

Lemma writeBuffer_full buffer data old w :
  memory w !! buffer = Some old -> length old = length data ->
  memory (writeBuffer buffer data w) = <[buffer := data]> (memory w).
Proof.
  intros Hold Hlen. unfold writeBuffer. rewrite Hold.
  rewrite (proj2 (Nat.leb_le _ _)) by lia. cbn.
  by rewrite drop_ge, app_nil_r by lia.
Qed.

(** C6 (amended): when the device, the opacity buffer or the opacity array
    is absent, [updateOpacities] returns normally and changes nothing (no
    exception, no console output, no write); when all three exist and the
    buffer has the size of the array, it blends the array, keeps the same
    buffer handle, allocates nothing, and overwrites the whole buffer with
    the new array, leaving every other buffer as it was. *)
Theorem updateOpacities_guard_and_write (this : Sample.t) (w : World) :
  (Sample.device this = None \/ Sample.opacityBuffer this = None \/
   Sample.starOpacities this = None ->
   Sample.updateOpacities Math_random this w = (Returned (), this, w)) /\
  (forall buffer ops old,
     Sample.device this = Some the_device ->
     Sample.opacityBuffer this = Some buffer ->
     Sample.starOpacities this = Some ops ->
     memory w !! buffer = Some old -> length old = length ops ->
     exists ops' w',
       Sample.updateOpacities Math_random this w =
         (Returned (), Sample.set_starOpacities (Some ops') this, w') /\
       Sample.opacityBuffer (Sample.set_starOpacities (Some ops') this) =
         Some buffer /\
       length ops' = length ops /\
       length (memory w') = length (memory w) /\
       memory w' !! buffer = Some ops' /\
       (forall other, other <> buffer -> memory w' !! other = memory w !! other) /\
       submitted w' = submitted w /\ console w' = console w).
Proof.
  split; [apply updateOpacities_not_ready|].
  intros buffer ops old Hd Hb Ho Hold Hlen.
  pose proof (updateOpacities_ready this w buffer ops Hd Hb Ho) as Hrun.
  cbn zeta in Hrun.
  destruct (twinkle_fold 1000 0 ops w) as (_ & Hlen' & _).
  cbn zeta in Hlen'.
  set (ops' := (fold_left (Sample.twinkle Math_random) (seq 0 1000) (ops, w)).1)
    in *.
  assert (memory (writeBuffer buffer ops' (after_draws 1000 w)) =
          <[buffer := ops']> (memory w)) as Hmem.
  { apply (writeBuffer_full buffer ops' old (after_draws 1000 w));
      [exact Hold | lia]. }
  exists ops', (writeBuffer buffer ops' (after_draws 1000 w)).
  split; [exact Hrun|]. split; [exact Hb|]. split; [exact Hlen'|].
  rewrite Hmem. split; [apply length_insert|].
  split; [apply list_lookup_insert_eq; by eapply lookup_lt_Some|].
  split; [intros other Hne; by apply list_lookup_insert_ne|].
  unfold writeBuffer. cbn [memory after_draws]. rewrite Hold.
  destruct (length ops' <=? length old)%nat; split; reflexivity.
Qed.

(** C3: let every opacity lie in [0, 1] and every random number in
    [0, 1).  One [updateOpacities] replaces each of the first 1000
    elements [c] by [c + (t - c) * 0.4] for a target [t] in [0.05, 1] made
    from the random number of its iteration, and leaves the length alone;
    after any number of steps every opacity is still in [0, 1]. *)
Theorem opacities_stay_in_unit_interval
    (this : Sample.t) (w : World) (ops : list number) :
  Sample.starOpacities this = Some ops ->
  Forall (between 0 1) ops ->
  (forall buffer,
     Sample.device this = Some the_device ->
     Sample.opacityBuffer this = Some buffer ->
     exists ops',
       Sample.starOpacities (Sample.updateOpacities Math_random this w).1.2
         = Some ops' /\
       length ops' = length ops /\
       (forall i, (1000 <= i)%nat -> ops' !! i = ops !! i) /\
       forall i c, (i < 1000)%nat -> ops !! i = Some c ->
         exists qc qt,
           c = Fin qc /\ target_at Math_random (random_calls w + i) = Fin qt /\
           5 # 100 <= qt <= 1 /\
           ops' !! i = Some (fin (qc + (qt - qc) * (4 # 10)))) /\
  (forall n, exists ops',
     Sample.starOpacities (Sample.steps Math_random n this w).1 = Some ops' /\
     length ops' = length ops /\
     Forall (between 0 1) ops').
Proof using random_range.
  intros Ho Hall. split.
  - intros buffer Hd Hb.
    rewrite (updateOpacities_ready this w buffer ops Hd Hb Ho).
    destruct (twinkle_fold 1000 0 ops w) as (_ & Hlen & Hout & Hin).
    cbn zeta in *. eexists. split; [reflexivity|]. split; [exact Hlen|].
    split; [intros i Hi; apply Hout; lia|].
    intros i c Hi Hc.
    assert (between 0 1 c) as (qc & -> & Hqc)%between_inv.
    { rewrite Forall_forall in Hall. apply Hall.
      by eapply list_elem_of_lookup_2. }
    destruct (between_inv _ _ _ (target_between (random_calls w + i)))
      as (qt & Hqt & Hrange).
    exists qc, qt. split; [reflexivity|]. split; [exact Hqt|].
    split; [exact Hrange|].
    rewrite (Hin i (Fin qc)); [|lia|exact Hc].
    rewrite Nat.sub_0_r, Hqt. by rewrite blend_finite.
  - intros n. revert this w ops Ho Hall.
    induction n as [|n IH]; intros this w ops Ho Hall.
    + exists ops. by cbn.
    + cbn [Sample.steps].
      destruct (Sample.device this) as [[]|] eqn:Hd;
        [destruct (Sample.opacityBuffer this) as [buffer|] eqn:Hb|].
      * rewrite (updateOpacities_ready this w buffer ops Hd Hb Ho).
        cbn zeta.
        destruct (twinkle_fold 1000 0 ops w) as (_ & Hlen & _).
        cbn zeta in Hlen.
        edestruct IH as (opsn & H1 & H2 & H3);
          [| |exists opsn; split; [exact H1|split; [|exact H3]]].
        -- reflexivity.
        -- by apply twinkle_fold_between.
        -- by rewrite H2.
      * rewrite updateOpacities_not_ready by auto. by apply IH.
      * rewrite updateOpacities_not_ready by auto. by apply IH.
Qed.

End Twinkling.

(** C6, as stated, fails: on a renderer without an opacity buffer (here
    the renderer as constructed) [updateOpacities] returns normally, with
    the renderer and the world, console included, unchanged: the call is
    silently ignored. *)
Lemma updateOpacities_without_buffer_is_silent :
  Sample.opacityBuffer Sample.constructor = None /\
  Sample.updateOpacities (fun _ => 1 # 2) Sample.constructor world0 =
    (Returned (), Sample.constructor, world0) /\
  console world0 = [].
Proof. repeat split. Qed.

Lemma updateOpacities_guard_and_write_witness :
  exists ops' w',
    Sample.updateOpacities (fun _ => 1 # 2) starfield.1 starfield.2 =
      (Returned (), Sample.set_starOpacities (Some ops') starfield.1, w') /\
    length (memory w') = length (memory starfield.2) /\
    memory w' !! 1%nat = Some ops'.
Proof.
  destruct (updateOpacities_guard_and_write (fun _ => 1 # 2)
              starfield.1 starfield.2) as [_ H].
  destruct (H 1%nat (replicate 1000 (Fin (1 # 2))) (replicate 1000 (Fin (1 # 2))))
    as (ops' & w' & H1 & _ & _ & H2 & H3 & _).
  - vm_compute. reflexivity.
  - vm_compute. reflexivity.
  - vm_compute. reflexivity.
  - vm_compute. reflexivity.
  - reflexivity.
  - exists ops', w'. split; [exact H1|]. split; [exact H2 | exact H3].
Defined.

Lemma half_in_range (k : nat) : 0 <= (fun _ : nat => 1 # 2) k < 1.
Proof. cbn. lra. Qed.

Lemma opacities_stay_in_unit_interval_witness :
  exists ops',
    Sample.starOpacities
      (Sample.steps (fun _ => 1 # 2) 3 starfield.1 starfield.2).1 = Some ops' /\
    length ops' = 1000%nat /\ Forall (between 0 1) ops'.
Proof.
  destruct (opacities_stay_in_unit_interval (fun _ => 1 # 2) half_in_range
              starfield.1 starfield.2 (replicate 1000 (Fin (1 # 2))))
    as [_ H].
  - vm_compute. reflexivity.
  - apply Forall_replicate. reflexivity.
  - destruct (H 3%nat) as (ops' & H1 & H2 & H3).
    exists ops'. split; [exact H1|]. split; [|exact H3].
    rewrite H2. apply length_replicate.
Defined.

(** ** The quad-expansion renderer *)

Section QuadExpansion.

Lemma fin_inject_Z q z : q == inject_Z z -> fin q = Fin (inject_Z z).
Proof.
  intros H. unfold fin. f_equal. rewrite (Qred_complete _ _ H).
  apply Qcanon.Qred_identity. cbn. apply Z.gcd_1_r.
Qed.

Lemma ndiv_of_nat_2 N : ndiv (of_nat (2 * N)) (Fin 2) = of_nat N.
Proof.
  unfold of_nat. cbn [ndiv].
  change (Qeq_bool 2 0) with false. cbn match.
  apply fin_inject_Z. rewrite Nat2Z.inj_mul, inject_Z_mult.
  change (inject_Z (Z.of_nat 2)) with 2. field.
Qed.

Lemma nmul_of_nat n k :
  nmul (of_nat n) (Fin (inject_Z (Z.of_nat k))) = of_nat (n * k).
Proof.
  unfold of_nat. cbn [nmul]. apply fin_inject_Z.
  by rewrite Nat2Z.inj_mul, inject_Z_mult.
Qed.

Lemma nmul_of_nat_6 n : nmul (of_nat n) (Fin 6) = of_nat (n * 6).
Proof. exact (nmul_of_nat n 6). Qed.

Lemma nmul_of_nat_2 n : nmul (of_nat n) (Fin 2) = of_nat (n * 2).
Proof. exact (nmul_of_nat n 2). Qed.

(** [trip_count] counts the indices that pass the loop test
    [i < bound]. *)
Lemma trip_count_spec q i :
  (i < trip_count (Fin q))%nat <-> inject_Z (Z.of_nat i) < q.
Proof.
  unfold trip_count. split; intros H.
  - assert (Z.of_nat i <= Qceiling q - 1)%Z as Hle by lia.
    apply (Qle_lt_trans _ (inject_Z (Qceiling q - 1))).
    + by rewrite <- Zle_Qle.
    + apply Qceiling_lt.
  - assert (inject_Z (Z.of_nat i) < inject_Z (Qceiling q)) as Hlt.
    { eapply Qlt_le_trans; [exact H | apply Qle_ceiling]. }
    rewrite <- Zlt_Qlt in Hlt. lia.
Qed.

Lemma trip_count_of_nat N : trip_count (of_nat N) = N.
Proof. unfold trip_count, of_nat. rewrite Qceiling_Z. apply Nat2Z.id. Qed.

Lemma Float32Array_new_of_nat n :
  Float32Array_new (of_nat n) = replicate n (Fin 0).
Proof.
  unfold Float32Array_new, of_nat. by rewrite Qfloor_Z, Nat2Z.id.
Qed.

Lemma neqb_of_nat_zero n : (0 < n)%nat -> neqb (of_nat n) (Fin 0) = false.
Proof.
  intros Hn. unfold of_nat. cbn [neqb]. apply Qeq_bool_false.
  intros H. unfold Qeq in H. cbn in H. lia.
Qed.

(** The innermost store into [pre ++ l] lands in [l], at the offset that
    [lia] finds. *)
Ltac store_next pre :=
  match goal with
  | |- context [<[?k := ?v]> (pre ++ ?l)] =>
      rewrite (insert_app_r_alt pre l k v) by lia;
      first [ store_at pre k 0%nat | store_at pre k 1%nat | store_at pre k 2%nat
            | store_at pre k 3%nat | store_at pre k 4%nat | store_at pre k 5%nat
            | store_at pre k 6%nat | store_at pre k 7%nat | store_at pre k 8%nat
            | store_at pre k 9%nat | store_at pre k 10%nat | store_at pre k 11%nat ]
  end
with store_at pre k c :=
  replace (k - length pre)%nat with c by lia; cbn [insert list_insert].

Lemma expand_point_app x y i pre old rest :
  length pre = (i * 12)%nat -> length old = 12%nat ->
  Quad.expand_point x y i (pre ++ old ++ rest) = pre ++ quad x y ++ rest.
Proof.
  intros Hpre Hold.
  do 12 (destruct old as [|? old]; [discriminate|]).
  destruct old; [|discriminate].
  unfold Quad.expand_point. cbn [seq fold_left app].
  do 12 (store_next pre).
  reflexivity.
Qed.

Lemma fill_fold points k : forall i pre,
  length pre = (i * 12)%nat ->
  fold_left
    (fun vertexData i =>
       Quad.expand_point (typed_get points (i * 2))
         (typed_get points (i * 2 + 1)) i vertexData)
    (seq i k) (pre ++ replicate (k * 12) (Fin 0))
  = pre ++ concat (map (quad_of points) (seq i k)).
Proof.
  induction k as [|k IH]; intros i pre Hpre; [reflexivity|].
  cbn [seq fold_left map concat].
  replace (S k * 12)%nat with (12 + k * 12)%nat by lia.
  rewrite replicate_add, expand_point_app;
    [|exact Hpre|apply length_replicate].
  specialize (IH (S i) (pre ++ quad_of points i)).
  rewrite <- !app_assoc in IH. unfold quad_of at 1 3 in IH.
  unfold quad_of at 1. apply IH.
  rewrite length_app, Hpre. cbn. lia.
Qed.

Lemma lookup_blocks (f : nat -> list number) l :
  (forall a, length (f a) = 12%nat) ->
  forall i a r, l !! i = Some a -> (r < 12)%nat ->
    concat (map f l) !! (i * 12 + r)%nat = f a !! r.
Proof.
  intros Hf. induction l as [|b l IH]; intros [|i] a r Hi Hr; try discriminate.
  - injection Hi as ->. cbn [map concat]. cbn [Nat.mul Nat.add].
    apply lookup_app_l. by rewrite Hf.
  - cbn [map concat]. rewrite lookup_app_r by (rewrite Hf; lia).
    rewrite Hf. replace (S i * 12 + r - 12)%nat with (i * 12 + r)%nat by lia.
    by apply IH.
Qed.

Lemma length_blocks (f : nat -> list number) l :
  (forall a, length (f a) = 12%nat) ->
  length (concat (map f l)) = (length l * 12)%nat.
Proof.
  intros Hf. induction l as [|b l IH]; [reflexivity|].
  cbn [map concat length]. rewrite length_app, Hf, IH. lia.
Qed.

Lemma quad_lookup x y j :
  (j < 6)%nat ->
  quad x y !! (j * 2)%nat = Some x /\ quad x y !! (j * 2 + 1)%nat = Some y.
Proof. intros Hj. do 6 (destruct j as [|j]; [by split|]). lia. Qed.

Lemma quad_of_length points i : length (quad_of points i) = 12%nat.
Proof. reflexivity. Qed.

(** The vertex array [setDataArray] builds from [2 * N] floats. *)
Lemma fill_even points N :
  length points = (2 * N)%nat ->
  let numPoints := ndiv (length_of points) (Fin 2) in
  Quad.fill points numPoints
    (Float32Array_new (nmul (nmul numPoints (Fin 6)) (Fin 2)))
  = concat (map (quad_of points) (seq 0 N)).
Proof.
  intros Hlen numPoints. subst numPoints.
  unfold length_of. rewrite Hlen. fold (of_nat (2 * N)).
  rewrite ndiv_of_nat_2.
  rewrite nmul_of_nat_6, nmul_of_nat_2.
  rewrite Float32Array_new_of_nat. unfold Quad.fill.
  rewrite trip_count_of_nat.
  replace (N * 6 * 2)%nat with (N * 12)%nat by lia.
  apply (fill_fold points N 0 []). reflexivity.
Qed.

(** C8: in the quad-expansion renderer, [setDataArray] on [2 * N] floats
    ([N > 0]) with a device present returns normally, sets the vertex
    count to [6 * N] and stores in a fresh buffer an array of [6 * N]
    vertices in which the six vertices [6 * i .. 6 * i + 5] all carry the
    position [(x, y)] of point [i]; a [render] that follows, on a renderer
    with context and pipeline, submits one pass whose single draw call
    covers [6 * N] vertices of that buffer. *)
Theorem quad_setDataArray_six_vertices
    (points : list number) (N : nat) (this : Quad.t) (w : World)
    (p : GPURenderPipeline) :
  length points = (2 * N)%nat -> (0 < N)%nat ->
  Quad.device this = Some the_device ->
  Quad.context this = Some the_context ->
  Quad.pipeline this = Some p ->
  exists this' w' buffer vertexData,
    Quad.setDataArray (Some points) this w = (Returned (), this', w') /\
    Quad.vertexBuffer this' = Some buffer /\
    Quad.vertexCount this' = of_nat (6 * N) /\
    memory w' !! buffer = Some vertexData /\
    length vertexData = (6 * N * 2)%nat /\
    (forall i j x y,
       (i < N)%nat -> (j < 6)%nat ->
       points !! (i * 2)%nat = Some x -> points !! (i * 2 + 1)%nat = Some y ->
       vertexData !! ((i * 6 + j) * 2)%nat = Some x /\
       vertexData !! ((i * 6 + j) * 2 + 1)%nat = Some y) /\
    exists w'',
      Quad.render this' w' = (Returned (), this', w'') /\
      submitted w'' =
        submitted w' ++
        [ {| clearValue := (0, 0, 1 # 10, 1);
             recorded := [ setPipeline p; setVertexBuffer 0 buffer;
                           draw (of_nat (6 * N)) 1 0 0 ] |} ] /\
      draw_calls w'' = draw_calls w' ++ [of_nat (6 * N)].
Proof.
  intros Hlen HN Hd Hc Hp.
  assert (points <> []) as Hne by (intros ->; cbn in Hlen; lia).
  pose proof (fill_even points N Hlen) as Hfill. cbn zeta in Hfill.
  assert (nmul (ndiv (length_of points) (Fin 2)) (Fin 6) = of_nat (6 * N))
    as Hcount.
  { unfold length_of. rewrite Hlen. fold (of_nat (2 * N)).
    rewrite ndiv_of_nat_2, nmul_of_nat_6. f_equal. lia. }
  set (vertexData := concat (map (quad_of points) (seq 0 N))) in *.
  assert (length vertexData = (N * 12)%nat) as Hsize.
  { subst vertexData. rewrite length_blocks by apply quad_of_length.
    by rewrite length_seq. }
  set (buffer := length (memory w)).
  set (w1 := (createBuffer (length vertexData) w).2).
  exists {| Quad.device := Quad.device this; Quad.context := Quad.context this;
            Quad.pipeline := Quad.pipeline this;
            Quad.vertexBuffer := Some buffer;
            Quad.vertexCount := of_nat (6 * N) |},
    (writeBuffer buffer vertexData w1), buffer, vertexData.
  assert (memory w1 !! buffer = Some (replicate (length vertexData) (Fin 0)))
    as Hfresh.
  { subst w1 buffer. cbn. by rewrite lookup_app_r, Nat.sub_diag by lia. }
  split; [|split; [reflexivity|split; [reflexivity|split; [|split; [lia|split]]]]].
  - unfold Quad.setDataArray. destruct points as [|v points]; [congruence|].
    rewrite Hfill, Hcount. cbn [Quad.device]. rewrite Hd. reflexivity.
  - rewrite (writeBuffer_full buffer vertexData _ w1 Hfresh)
      by apply length_replicate.
    apply list_lookup_insert_eq. by eapply lookup_lt_Some.
  - intros i j x y Hi Hj Hx Hy. subst vertexData.
    destruct (quad_lookup x y j Hj) as [Qx Qy].
    replace ((i * 6 + j) * 2)%nat with (i * 12 + j * 2)%nat by lia.
    replace (i * 12 + j * 2 + 1)%nat with (i * 12 + (j * 2 + 1))%nat by lia.
    rewrite !(lookup_blocks (quad_of points) (seq 0 N) (quad_of_length points) i i);
      try lia; try (by apply lookup_seq_lt).
    unfold quad_of, typed_get. rewrite Hx, Hy. cbn [default]. by split.
  - unfold Quad.render. cbn [Quad.vertexBuffer Quad.vertexCount Quad.device
      Quad.context Quad.pipeline].
    rewrite neqb_of_nat_zero by lia. rewrite Hd, Hc, Hp.
    eexists. split; [reflexivity|]. split; [reflexivity|].
    by rewrite draw_calls_submit.
Qed.

Lemma quad_setDataArray_six_vertices_witness :
  exists this' w' buffer vertexData,
    Quad.setDataArray (Some [Fin 3; Fin 4; Fin 5; Fin 6]) quad_ready world0 =
      (Returned (), this', w') /\
    Quad.vertexCount this' = Fin 12 /\
    memory w' !! buffer = Some vertexData /\
    length vertexData = 24%nat /\
    vertexData !! 22%nat = Some (Fin 5) /\
    exists w'',
      Quad.render this' w' = (Returned (), this', w'') /\
      draw_calls w'' = draw_calls w' ++ [Fin 12].
Proof.
  destruct (quad_setDataArray_six_vertices
              [Fin 3; Fin 4; Fin 5; Fin 6] 2 quad_ready world0
              {| primitive_topology := triangle_list; arrayStrides := [8%nat] |}
              eq_refl ltac:(lia) eq_refl eq_refl eq_refl)
    as (this' & w' & buffer & vertexData & H1 & _ & H2 & H3 & H4 & H5 & H6).
  exists this', w', buffer, vertexData.
  split; [exact H1|]. split; [exact H2|]. split; [exact H3|].
  split; [exact H4|].
  split; [exact (proj1 (H5 1%nat 5%nat (Fin 5) (Fin 6)
                          ltac:(lia) ltac:(lia) eq_refl eq_refl))|].
  destruct H6 as (w'' & H7 & _ & H8). exists w''. by split.
Defined.

End QuadExpansion.

(** * Further properties *)

(** ** The bounding box of the collected points *)

Section BoundingBox.
Import ShallowTable.

Lemma Math_min_choice a b : Math_min a b = a \/ Math_min a b = b.
Proof. destruct a, b; cbn; auto. destruct (Qle_bool q q0); auto. Qed.

Lemma Math_max_choice a b : Math_max a b = a \/ Math_max a b = b.
Proof. destruct a, b; cbn; auto. destruct (Qle_bool q q0); auto. Qed.

Lemma fold_choice (f : number -> number -> number) xs :
  (forall a b, f a b = a \/ f a b = b) ->
  forall m, fold_left f xs m = m \/ fold_left f xs m ∈ xs.
Proof.
  intros Hf. induction xs as [|x xs IH]; intros m; [by left|].
  cbn [fold_left]. destruct (IH (f m x)) as [H|H].
  - rewrite H. destruct (Hf m x) as [-> | ->]; [by left|].
    right. apply list_elem_of_here.
  - right. by apply list_elem_of_further.
Qed.

(** The running limit of a non-empty pass is one of the values seen. *)
Lemma fold_attained (f : number -> number -> number) xs m :
  (forall a b, f a b = a \/ f a b = b) -> (forall a, f m a = a) ->
  xs <> [] -> fold_left f xs m ∈ xs.
Proof.
  intros Hf Hm Hne. destruct xs as [|x xs]; [congruence|].
  cbn [fold_left]. rewrite Hm.
  destruct (fold_choice f xs Hf x) as [-> | H].
  - apply list_elem_of_here.
  - by apply list_elem_of_further.
Qed.

Lemma Math_min_not_nan a b : not_nan a -> not_nan b -> not_nan (Math_min a b).
Proof. destruct a, b; cbn; try done. by destruct (Qle_bool q q0). Qed.

Lemma Math_max_not_nan a b : not_nan a -> not_nan b -> not_nan (Math_max a b).
Proof. destruct a, b; cbn; try done. by destruct (Qle_bool q q0). Qed.

Lemma fold_not_nan (f : number -> number -> number) xs :
  (forall a b, not_nan a -> not_nan b -> not_nan (f a b)) ->
  Forall not_nan xs -> forall m, not_nan m -> not_nan (fold_left f xs m).
Proof.
  intros Hf. induction 1 as [|x xs Hx _ IH]; intros m Hm; [exact Hm|].
  cbn [fold_left]. apply IH. by apply Hf.
Qed.

Lemma Math_min_nan_l a : Math_min NaN a = NaN.
Proof. by destruct a. Qed.

Lemma Math_max_nan_l a : Math_max NaN a = NaN.
Proof. by destruct a. Qed.

Lemma Math_min_nan_r a : Math_min a NaN = NaN.
Proof. by destruct a. Qed.

Lemma Math_max_nan_r a : Math_max a NaN = NaN.
Proof. by destruct a. Qed.

(** A [NaN] met by the running limit never goes away. *)
Lemma fold_nan (f : number -> number -> number) xs :
  (forall a, f NaN a = NaN) -> (forall a, f a NaN = NaN) ->
  forall m, m = NaN \/ NaN ∈ xs -> fold_left f xs m = NaN.
Proof.
  intros Hl Hr. induction xs as [|x xs IH]; intros m [Hm|Hin].
  - exact Hm.
  - by apply elem_of_nil in Hin.
  - cbn [fold_left]. apply IH. left. by rewrite Hm, Hl.
  - cbn [fold_left]. apply IH.
    apply elem_of_cons in Hin as [<- | Hin]; [left; apply Hr | by right].
Qed.

Lemma elem_of_points rows p :
  p ∈ map point_of_row rows ->
  exists row, row ∈ rows /\ p = point_of_row row.
Proof. intros (row & -> & Hrow)%list_elem_of_fmap. by exists row. Qed.

(** X1: after a successful [collectPoints] on rows without [NaN], the bounds
    are the bounding box of the collected points: every point lies within
    them on both axes, and when a point was collected each of the four
    limits is the coordinate of some collected point. *)
Theorem bounds_are_bounding_box (this : t) (b : Bounds.t) :
  ready (deeptable this) = true ->
  let this' := (collectPoints this).2 in
  bounds this' = Some b ->
  Forall (fun row => not_nan (row_x row) /\ not_nan (row_y row))
         (usable_rows (visited (deeptable this))) ->
  (forall p, p ∈ points this' ->
     nle (Vec2.x (Bounds.min b)) (Vec2.x (position p)) /\
     nle (Vec2.x (position p)) (Vec2.x (Bounds.max b)) /\
     nle (Vec2.y (Bounds.min b)) (Vec2.y (position p)) /\
     nle (Vec2.y (position p)) (Vec2.y (Bounds.max b))) /\
  (points this' <> [] ->
   (exists p, p ∈ points this' /\ Vec2.x (position p) = Vec2.x (Bounds.min b)) /\
   (exists p, p ∈ points this' /\ Vec2.x (position p) = Vec2.x (Bounds.max b)) /\
   (exists p, p ∈ points this' /\ Vec2.y (position p) = Vec2.y (Bounds.min b)) /\
   (exists p, p ∈ points this' /\ Vec2.y (position p) = Vec2.y (Bounds.max b))).
Proof.
  intros Hready this' Hb Hnan. subst this'.
  rewrite (collectPoints_ready this Hready) in *. cbn [snd bounds points] in *.
  set (rows := usable_rows (visited (deeptable this))) in *.
  injection Hb as <-. cbn [Bounds.min Bounds.max Vec2.x Vec2.y].
  assert (Forall not_nan (map row_x rows)) as Hx.
  { apply Forall_map. eapply Forall_impl; [exact Hnan|]. by intros ? [? ?]. }
  assert (Forall not_nan (map row_y rows)) as Hy.
  { apply Forall_map. eapply Forall_impl; [exact Hnan|]. by intros ? [? ?]. }
  split.
  - intros p (row & Hrow & ->)%elem_of_points. cbn.
    destruct (fold_min_lower (map row_x rows) PInf) as [_ H1];
      [by apply (fold_not_nan _ _ Math_min_not_nan)|].
    destruct (fold_max_upper (map row_x rows) NInf) as [_ H2];
      [by apply (fold_not_nan _ _ Math_max_not_nan)|].
    destruct (fold_min_lower (map row_y rows) PInf) as [_ H3];
      [by apply (fold_not_nan _ _ Math_min_not_nan)|].
    destruct (fold_max_upper (map row_y rows) NInf) as [_ H4];
      [by apply (fold_not_nan _ _ Math_max_not_nan)|].
    rewrite Forall_forall in H1, H2, H3, H4.
    assert (row_x row ∈ map row_x rows) by (by apply list_elem_of_fmap_2).
    assert (row_y row ∈ map row_y rows) by (by apply list_elem_of_fmap_2).
    repeat split; auto.
  - intros Hne.
    assert (map row_x rows <> []) as Hnx by (by destruct rows).
    assert (map row_y rows <> []) as Hny by (by destruct rows).
    repeat split.
    + destruct (proj1 (list_elem_of_fmap _ _ _)
        (fold_attained Math_min _ PInf Math_min_choice Math_min_PInf Hnx))
        as (row & E & Hrow).
      exists (point_of_row row). split; [by apply list_elem_of_fmap_2|]. by cbn.
    + destruct (proj1 (list_elem_of_fmap _ _ _)
        (fold_attained Math_max _ NInf Math_max_choice Math_max_NInf Hnx))
        as (row & E & Hrow).
      exists (point_of_row row). split; [by apply list_elem_of_fmap_2|]. by cbn.
    + destruct (proj1 (list_elem_of_fmap _ _ _)
        (fold_attained Math_min _ PInf Math_min_choice Math_min_PInf Hny))
        as (row & E & Hrow).
      exists (point_of_row row). split; [by apply list_elem_of_fmap_2|]. by cbn.
    + destruct (proj1 (list_elem_of_fmap _ _ _)
        (fold_attained Math_max _ NInf Math_max_choice Math_max_NInf Hny))
        as (row & E & Hrow).
      exists (point_of_row row). split; [by apply list_elem_of_fmap_2|]. by cbn.
Qed.

Lemma bounds_are_bounding_box_witness :
  exists p, p ∈ points (collectPoints (constructor three_tiles)).2 /\
            Vec2.x (position p) = Fin 5.
Proof.
  destruct (bounds_are_bounding_box (constructor three_tiles) _
              eq_refl eq_refl) as [_ H].
  - vm_compute. repeat constructor.
  - destruct H as (_ & H & _); [by vm_compute | exact H].
Defined.

End BoundingBox.

(** ** Collection followed by normalisation *)

Section Pipeline.
Import ShallowTable.

Lemma normalizeCoordinate_nan_bounds v : normalizeCoordinate v NaN NaN = NaN.
Proof. by destruct v. Qed.

(** X2: one [NaN] among the collected [x] (or [y]) coordinates turns both
    limits of that axis into [NaN], and with them every entry of that axis
    in the normalised buffer, also those of the points that had a proper
    coordinate. *)
Theorem nan_coordinate_poisons_axis (this : t) (b : Bounds.t) :
  ready (deeptable this) = true ->
  let rows := usable_rows (visited (deeptable this)) in
  let this' := (collectPoints this).2 in
  bounds this' = Some b ->
  ((exists row, row ∈ rows /\ row_x row = NaN) ->
   Vec2.x (Bounds.min b) = NaN /\ Vec2.x (Bounds.max b) = NaN /\
   exists array,
     getNormalizedPointsArray this' = Returned array /\
     forall i, (i < length (points this'))%nat ->
               array !! (i * 2)%nat = Some NaN) /\
  ((exists row, row ∈ rows /\ row_y row = NaN) ->
   Vec2.y (Bounds.min b) = NaN /\ Vec2.y (Bounds.max b) = NaN /\
   exists array,
     getNormalizedPointsArray this' = Returned array /\
     forall i, (i < length (points this'))%nat ->
               array !! (i * 2 + 1)%nat = Some NaN).
Proof.
  intros Hready rows this' Hb. subst this' rows.
  rewrite (collectPoints_ready this Hready) in *. cbn [snd bounds points] in *.
  set (rows := usable_rows (visited (deeptable this))) in *.
  injection Hb as Hb.
  split; intros (row & Hrow & Hnan).
  - assert (NaN ∈ map row_x rows) as Hin
      by (rewrite <- Hnan; by apply list_elem_of_fmap_2).
    assert (Vec2.x (Bounds.min b) = NaN) as Hmin.
    { rewrite <- Hb. cbn.
      apply (fold_nan Math_min _ Math_min_nan_l Math_min_nan_r PInf). auto. }
    assert (Vec2.x (Bounds.max b) = NaN) as Hmax.
    { rewrite <- Hb. cbn.
      apply (fold_nan Math_max _ Math_max_nan_l Math_max_nan_r NInf). auto. }
    split; [exact Hmin|]. split; [exact Hmax|].
    exists (concat (map (normalized_pair b) (map point_of_row rows))).
    split; [apply getNormalizedPointsArray_pairs; cbn; by rewrite Hb|].
    intros i Hi.
    destruct (lookup_lt_is_Some_2 _ i Hi) as [p Hp].
    destruct (lookup_pairs b _ i p Hp) as [H1 _]. rewrite H1, Hmin, Hmax.
    f_equal. apply normalizeCoordinate_nan_bounds.
  - assert (NaN ∈ map row_y rows) as Hin
      by (rewrite <- Hnan; by apply list_elem_of_fmap_2).
    assert (Vec2.y (Bounds.min b) = NaN) as Hmin.
    { rewrite <- Hb. cbn.
      apply (fold_nan Math_min _ Math_min_nan_l Math_min_nan_r PInf). auto. }
    assert (Vec2.y (Bounds.max b) = NaN) as Hmax.
    { rewrite <- Hb. cbn.
      apply (fold_nan Math_max _ Math_max_nan_l Math_max_nan_r NInf). auto. }
    split; [exact Hmin|]. split; [exact Hmax|].
    exists (concat (map (normalized_pair b) (map point_of_row rows))).
    split; [apply getNormalizedPointsArray_pairs; cbn; by rewrite Hb|].
    intros i Hi.
    destruct (lookup_lt_is_Some_2 _ i Hi) as [p Hp].
    destruct (lookup_pairs b _ i p Hp) as [_ H2]. rewrite H2, Hmin, Hmax.
    f_equal. apply normalizeCoordinate_nan_bounds.
Qed.

Lemma nan_coordinate_poisons_axis_witness :
  exists array,
    getNormalizedPointsArray (collectPoints (constructor nan_second_row)).2
      = Returned array /\
    array !! 0%nat = Some NaN.
Proof.
  destruct (nan_coordinate_poisons_axis (constructor nan_second_row) _
              eq_refl eq_refl) as [H _].
  destruct H as (_ & _ & array & H1 & H2).
  - exists {| row_x := NaN; row_y := Fin 4 |}. split; [|reflexivity].
    vm_compute. apply list_elem_of_further, list_elem_of_here.
  - exists array. split; [exact H1|]. apply (H2 0%nat). vm_compute. lia.
Defined.

Lemma normalized_in_range v lo hi :
  lo <= v <= hi -> ~ hi == lo ->
  -1 <= (v - lo) / (hi - lo) * 2 - 1 <= 1.
Proof.
  intros [H1 H2] Hne. assert (0 < hi - lo) as Hd by lra.
  assert (0 <= (v - lo) / (hi - lo)) as Hlow.
  { apply Qle_shift_div_l; [exact Hd | lra]. }
  assert ((v - lo) / (hi - lo) <= 1) as Hhigh.
  { apply Qle_shift_div_r; [exact Hd | lra]. }
  lra.
Qed.

(** Finite limits bracket finite coordinates only. *)
Lemma bracketed_finite lo hi v :
  nle (Fin lo) v -> nle v (Fin hi) -> exists q, v = Fin q /\ lo <= q <= hi.
Proof.
  destruct v as [q| | |]; unfold nle; cbn; try discriminate.
  intros H1%Qle_bool_true H2%Qle_bool_true. by exists q.
Qed.

(** X3: when the bounds stored by [collectPoints] are finite on an axis,
    with an extent there that is nonzero and below the overflow threshold
    of a double, every entry of that axis in the normalised buffer is a
    finite number between [-1] and [1]. *)
Theorem normalized_buffer_within_ndc (this : t) (b : Bounds.t) :
  ready (deeptable this) = true ->
  let this' := (collectPoints this).2 in
  bounds this' = Some b ->
  (forall lo hi,
     Vec2.x (Bounds.min b) = Fin lo -> Vec2.x (Bounds.max b) = Fin hi ->
     ~ hi == lo -> hi - lo < overflow_threshold ->
     exists array,
       getNormalizedPointsArray this' = Returned array /\
       forall i, (i < length (points this'))%nat ->
                 exists q, array !! (i * 2)%nat = Some (Fin q) /\ -1 <= q <= 1) /\
  (forall lo hi,
     Vec2.y (Bounds.min b) = Fin lo -> Vec2.y (Bounds.max b) = Fin hi ->
     ~ hi == lo -> hi - lo < overflow_threshold ->
     exists array,
       getNormalizedPointsArray this' = Returned array /\
       forall i, (i < length (points this'))%nat ->
                 exists q, array !! (i * 2 + 1)%nat = Some (Fin q) /\ -1 <= q <= 1).
Proof.
  intros Hready this' Hb. subst this'.
  rewrite (collectPoints_ready this Hready) in *. cbn [snd bounds points] in *.
  set (rows := usable_rows (visited (deeptable this))) in *.
  injection Hb as Hb.
  split; intros lo hi Hlo Hhi Hne Hext;
    (exists (concat (map (normalized_pair b) (map point_of_row rows)));
     split; [apply getNormalizedPointsArray_pairs; cbn; by rewrite Hb|]);
    intros i Hi; rewrite length_map in Hi;
    destruct (lookup_lt_is_Some_2 rows i Hi) as [row Hrow];
    assert (map point_of_row rows !! i = Some (point_of_row row)) as Hp
      by (by rewrite list_lookup_fmap, Hrow);
    destruct (lookup_pairs b _ i _ Hp) as [H1 H2].
  - rewrite H1, Hlo, Hhi. cbn [point_of_row position Vec2.x].
    rewrite <- Hb in Hlo, Hhi. cbn in Hlo, Hhi.
    destruct (fold_min_lower (map row_x rows) PInf) as [_ Hmin];
      [by rewrite Hlo|].
    destruct (fold_max_upper (map row_x rows) NInf) as [_ Hmax];
      [by rewrite Hhi|].
    rewrite Hlo in Hmin. rewrite Hhi in Hmax.
    rewrite Forall_forall in Hmin, Hmax.
    assert (row_x row ∈ map row_x rows) as Hin.
    { apply list_elem_of_fmap_2. by eapply list_elem_of_lookup_2. }
    destruct (bracketed_finite lo hi (row_x row) (Hmin _ Hin) (Hmax _ Hin))
      as (v & -> & Hv).
    rewrite normalizeCoordinate_within by assumption.
    eexists. split; [reflexivity|]. rewrite Qred_correct.
    by apply normalized_in_range.
  - rewrite H2, Hlo, Hhi. cbn [point_of_row position Vec2.y].
    rewrite <- Hb in Hlo, Hhi. cbn in Hlo, Hhi.
    destruct (fold_min_lower (map row_y rows) PInf) as [_ Hmin];
      [by rewrite Hlo|].
    destruct (fold_max_upper (map row_y rows) NInf) as [_ Hmax];
      [by rewrite Hhi|].
    rewrite Hlo in Hmin. rewrite Hhi in Hmax.
    rewrite Forall_forall in Hmin, Hmax.
    assert (row_y row ∈ map row_y rows) as Hin.
    { apply list_elem_of_fmap_2. by eapply list_elem_of_lookup_2. }
    destruct (bracketed_finite lo hi (row_y row) (Hmin _ Hin) (Hmax _ Hin))
      as (v & -> & Hv).
    rewrite normalizeCoordinate_within by assumption.
    eexists. split; [reflexivity|]. rewrite Qred_correct.
    by apply normalized_in_range.
Qed.

Lemma normalized_buffer_within_ndc_witness :
  exists array q,
    getNormalizedPointsArray (collectPoints (constructor three_tiles)).2
      = Returned array /\
    array !! 4%nat = Some (Fin q) /\ -1 <= q <= 1.
Proof.
  destruct (normalized_buffer_within_ndc (constructor three_tiles) _
              eq_refl eq_refl) as [H _].
  destruct (H 0 5 eq_refl eq_refl) as (array & H1 & H2);
    [by vm_compute | by vm_compute |].
  destruct (H2 2%nat) as (q & H3 & H4); [vm_compute; lia|].
  exists array, q. by split.
Defined.

(** X4: [collectPoints] starts from an empty point list: what it returns and
    stores depends on the external table alone, so points never pile up
    over repeated calls and a second call on unchanged tiles reproduces
    the first. *)
Theorem collectPoints_starts_afresh (this other : t) :
  deeptable this = deeptable other ->
  collectPoints this =
    (if ready (deeptable this)
     then collectPoints other
     else (Threw Rejection, this)) /\
  collectPoints (collectPoints this).2 = collectPoints this.
Proof.
  intros Hdt. unfold collectPoints. rewrite <- Hdt.
  destruct (ready (deeptable this)) eqn:Hready; cbn.
  - split; [reflexivity|]. by rewrite Hready.
  - split; [reflexivity|]. by rewrite Hready.
Qed.

Lemma collectPoints_starts_afresh_witness :
  collectPoints (collectPoints (constructor three_tiles)).2 =
  collectPoints (constructor three_tiles).
Proof.
  exact (proj2 (collectPoints_starts_afresh (constructor three_tiles)
                  (constructor three_tiles) eq_refl)).
Defined.

(** X5: on every table a program can hold, null bounds come with an empty
    point list; so [getNormalizedPointsArray] never throws, before
    [collectPoints] it returns the empty array (where [getBounds] throws),
    and its result always has two entries per point. *)
Theorem getNormalizedPointsArray_never_throws (this : t) :
  reachable this ->
  (bounds this = None -> points this = []) /\
  exists array,
    getNormalizedPointsArray this = Returned array /\
    length array = (length (points this) * 2)%nat.
Proof.
  intros Hreach.
  assert (bounds this = None -> points this = []) as Hinv.
  { induction Hreach as [dt | this dt _ IH | this _ IH]; cbn; try done.
    unfold collectPoints. destruct (ready (deeptable this)); cbn; done. }
  split; [exact Hinv|].
  destruct (bounds this) as [b|] eqn:Hb.
  - eexists. split; [by apply getNormalizedPointsArray_pairs|].
    apply length_pairs.
  - exists []. unfold getNormalizedPointsArray. rewrite Hb, (Hinv eq_refl).
    by split.
Qed.

Lemma getNormalizedPointsArray_never_throws_witness :
  getNormalizedPointsArray (constructor three_tiles) = Returned [] /\
  exists array,
    getNormalizedPointsArray (collectPoints (constructor three_tiles)).2
      = Returned array /\
    length array = 6%nat.
Proof.
  split; [reflexivity|].
  destruct (getNormalizedPointsArray_never_throws
              (collectPoints (constructor three_tiles)).2
              (reach_collect _ (reach_new three_tiles))) as (_ & array & H1 & H2).
  exists array. by split.
Defined.

End Pipeline.

(** ** Uploading data to the point-list renderer *)

Section PointListData.

Lemma half_length_nonzero (points : list number) :
  points <> [] -> neqb (ndiv (length_of points) (Fin 2)) (Fin 0) = false.
Proof.
  intros Hne. change (ndiv (length_of points) (Fin 2))
    with (fin (inject_Z (Z.of_nat (length points)) / 2)).
  cbn. apply Qeq_bool_false. rewrite Qred_correct.
  destruct points as [|p points]; [congruence|].
  intros H. cbn [length] in H.
  assert (0 < inject_Z (Z.of_nat (S (length points)))) as Hpos.
  { rewrite <- (Zlt_Qlt 0). lia. }
  assert (inject_Z (Z.of_nat (S (length points))) / 2 ==
          inject_Z (Z.of_nat (S (length points))) * (1 # 2)) as E by reflexivity.
  rewrite E in H. lra.
Qed.

(** Creating a buffer for [data] and writing [data] to it appends [data]
    to the device memory, under the next free handle. *)
Lemma upload_fresh (data : list number) (w : World) :
  let w1 := writeBuffer (length (memory w)) data
              (createBuffer (length data) w).2 in
  (createBuffer (length data) w).1 = length (memory w) /\
  memory w1 = memory w ++ [data] /\
  submitted w1 = submitted w /\
  console w1 = console w /\
  random_calls w1 = random_calls w.
Proof.
  cbn. split; [reflexivity|]. unfold writeBuffer. cbn [memory].
  rewrite lookup_app_r, Nat.sub_diag by lia. cbn [lookup list_lookup].
  rewrite length_replicate, Nat.leb_refl. cbn.
  rewrite drop_ge, app_nil_r by (rewrite length_replicate; lia).
  rewrite insert_app_r_alt, Nat.sub_diag by lia. done.
Qed.

(** X6: on a renderer that [initialize] set up in a browser granting GPU,
    adapter and context, [setDataArray] with a non-empty array followed by
    [render] never throws: the array is copied unchanged into one new
    device buffer, and the frame is one submission whose single draw call
    reads that buffer with a vertex count of half the array length. *)
Theorem point_list_upload_then_render
    (nav : Navigator) (points : list number) (w : World) :
  gpu nav = true -> adapter nav = true -> webgpu_context nav = true ->
  points <> [] ->
  exists this0 this1 w1 w2 p,
    PointList.initialize nav PointList.constructor = (Returned (), this0) /\
    PointList.setDataArray (Some points) this0 w = (Returned (), this1, w1) /\
    PointList.vertexBuffer this1 = Some (length (memory w)) /\
    PointList.vertexCount this1 =
      fin (inject_Z (Z.of_nat (length points)) / 2) /\
    memory w1 = memory w ++ [points] /\
    PointList.render this1 w1 = (Returned (), this1, w2) /\
    memory w2 = memory w1 /\
    submitted w2 =
      submitted w ++
      [ {| clearValue := (0, 0, 1 # 10, 1);
           recorded := [ setPipeline p; setVertexBuffer 0 (length (memory w));
                         draw (PointList.vertexCount this1) 1 0 0 ] |} ].
Proof.
  intros Hgpu Hadapter Hcontext Hne.
  unfold PointList.initialize. rewrite Hgpu, Hadapter, Hcontext. cbn [negb].
  destruct (upload_fresh points w) as (_ & Hmem & Hsub & _).
  set (p := {| primitive_topology := point_list; arrayStrides := [8%nat] |}).
  set (this1 :=
    {| PointList.device := Some the_device;
       PointList.context := Some the_context;
       PointList.pipeline := Some p;
       PointList.vertexBuffer := Some (length (memory w));
       PointList.vertexCount := ndiv (length_of points) (Fin 2) |}).
  set (w1 := writeBuffer (length (memory w)) points
               (createBuffer (length points) w).2) in *.
  eexists _, this1, w1, (submit _ w1), p.
  split; [reflexivity|].
  split; [by destruct points|]. split; [reflexivity|]. split; [reflexivity|].
  split; [exact Hmem|].
  unfold PointList.render. subst this1.
  cbn [PointList.vertexBuffer PointList.vertexCount
    PointList.device PointList.context PointList.pipeline].
  rewrite half_length_nonzero by done.
  split; [reflexivity|]. split; [reflexivity|].
  cbn [submit submitted]. by rewrite Hsub.
Qed.

Lemma point_list_upload_then_render_witness :
  exists this1 w1 w2,
    PointList.setDataArray (Some [Fin 1; Fin 2; Fin 3])
      (PointList.initialize full_support PointList.constructor).2 world0
      = (Returned (), this1, w1) /\
    PointList.vertexCount this1 = Fin (3 # 2) /\
    PointList.render this1 w1 = (Returned (), this1, w2) /\
    draw_calls w2 = [Fin (3 # 2)].
Proof.
  destruct (point_list_upload_then_render full_support
              [Fin 1; Fin 2; Fin 3] world0 eq_refl eq_refl eq_refl)
    as (this0 & this1 & w1 & w2 & p & H0 & H1 & _ & H2 & _ & H3 & _ & H4);
    [done|].
  rewrite H0. exists this1, w1, w2.
  split; [exact H1|]. split; [exact H2|]. split; [exact H3|].
  unfold draw_calls. rewrite H4, H2. reflexivity.
Defined.

(** X7: before [initialize] (no device), [setDataArray] with a non-empty array
    throws a [TypeError], creates no buffer, and has already overwritten
    the vertex count; as long as no buffer was ever set, the next [render]
    is still only a warning. *)
Theorem point_list_setDataArray_without_device
    (points : list number) (this : PointList.t) (w : World) :
  PointList.device this = None -> points <> [] ->
  exists this',
    PointList.setDataArray (Some points) this w = (Threw TypeError, this', w) /\
    PointList.vertexBuffer this' = PointList.vertexBuffer this /\
    PointList.vertexCount this' = ndiv (length_of points) (Fin 2) /\
    neqb (PointList.vertexCount this') (Fin 0) = false /\
    (PointList.vertexBuffer this = None ->
     PointList.render this' w =
       (Returned (), this', console_print warn "No vertices to render" w)).
Proof.
  intros Hd Hne. destruct points as [|v points]; [congruence|].
  unfold PointList.setDataArray. cbn [PointList.device]. rewrite Hd.
  eexists. split; [reflexivity|]. split; [reflexivity|].
  split; [reflexivity|]. split; [by apply half_length_nonzero|].
  intros Hb. unfold PointList.render. cbn [PointList.vertexBuffer].
  by rewrite Hb.
Qed.

Lemma point_list_setDataArray_without_device_witness :
  exists this',
    PointList.setDataArray (Some [Fin 1; Fin 2]) PointList.constructor world0
      = (Threw TypeError, this', world0) /\
    PointList.vertexCount this' = Fin 1.
Proof.
  destruct (point_list_setDataArray_without_device [Fin 1; Fin 2]
              PointList.constructor world0 eq_refl)
    as (this' & H1 & _ & H2 & _); [done|].
  exists this'. split; [exact H1 | exact H2].
Defined.

(** X8: every [setDataArray] with data allocates a new buffer: after two
    calls the renderer points at the second buffer and counts the second
    array, while the first buffer stays in device memory with its
    contents (the call neither overwrites nor destroys it). *)
Theorem point_list_setDataArray_twice
    (first second : list number) (this : PointList.t) (w : World) :
  PointList.device this = Some the_device ->
  first <> [] -> second <> [] ->
  exists this1 w1 this2 w2,
    PointList.setDataArray (Some first) this w = (Returned (), this1, w1) /\
    PointList.setDataArray (Some second) this1 w1 = (Returned (), this2, w2) /\
    PointList.vertexBuffer this1 = Some (length (memory w)) /\
    PointList.vertexBuffer this2 = Some (S (length (memory w))) /\
    PointList.vertexCount this2 = ndiv (length_of second) (Fin 2) /\
    memory w2 = memory w ++ [first; second].
Proof.
  intros Hd Hfirst Hsecond.
  destruct first as [|a first]; [congruence|].
  destruct second as [|b second]; [congruence|].
  unfold PointList.setDataArray. cbn [PointList.device]. rewrite Hd.
  destruct (upload_fresh (a :: first) w) as (_ & Hm1 & _).
  set (w1 := writeBuffer (length (memory w)) (a :: first)
               (createBuffer (length (a :: first)) w).2) in *.
  destruct (upload_fresh (b :: second) w1) as (_ & Hm2 & _).
  set (w2 := writeBuffer (length (memory w1)) (b :: second)
               (createBuffer (length (b :: second)) w1).2) in *.
  assert (length (memory w1) = S (length (memory w))) as Hlen
    by (rewrite Hm1, length_app; cbn; lia).
  eexists _, w1, _, w2. split; [reflexivity|]. cbn [PointList.device].
  split; [reflexivity|]. split; [reflexivity|].
  split; [cbn [PointList.vertexBuffer]; by rewrite <- Hlen|].
  split; [reflexivity|].
  rewrite Hm2, Hm1, <- app_assoc. reflexivity.
Qed.

Lemma point_list_setDataArray_twice_witness :
  exists this1 w1 this2 w2,
    PointList.setDataArray (Some [Fin 1; Fin 2]) two_points.1 two_points.2
      = (Returned (), this1, w1) /\
    PointList.setDataArray (Some [Fin 7; Fin 8; Fin 9; Fin 10]) this1 w1
      = (Returned (), this2, w2) /\
    memory w2 = memory two_points.2 ++
                [[Fin 1; Fin 2]; [Fin 7; Fin 8; Fin 9; Fin 10]].
Proof.
  destruct (point_list_setDataArray_twice [Fin 1; Fin 2]
              [Fin 7; Fin 8; Fin 9; Fin 10] two_points.1 two_points.2 eq_refl)
    as (this1 & w1 & this2 & w2 & H1 & H2 & _ & _ & _ & H3); try done.
  exists this1, w1, this2, w2. by split.
Defined.

End PointListData.

(** ** The quad-expansion renderer on arrays of any length *)

Section QuadAnyLength.

Lemma vertexCount_any L :
  nmul (ndiv (of_nat L) (Fin 2)) (Fin 6) = of_nat (3 * L).
Proof.
  change (nmul (ndiv (of_nat L) (Fin 2)) (Fin 6))
    with (fin (Qred (inject_Z (Z.of_nat L) / 2) * 6)).
  apply fin_inject_Z.
  rewrite Qred_correct, Nat2Z.inj_mul, inject_Z_mult.
  change (inject_Z (Z.of_nat 3)) with 3. field.
Qed.

Lemma expand_point_length x y i vertexData :
  length (Quad.expand_point x y i vertexData) = length vertexData.
Proof.
  unfold Quad.expand_point. cbn [seq fold_left].
  by rewrite !length_insert.
Qed.

Lemma fill_length points n : forall vertexData,
  length (Quad.fill points n vertexData) = length vertexData.
Proof.
  unfold Quad.fill. generalize (seq 0 (trip_count n)) as l.
  induction l as [|i l IH]; intros vertexData; [reflexivity|].
  cbn [fold_left]. by rewrite IH, expand_point_length.
Qed.

(** X9: for every non-empty array, of even or odd length [L], [setDataArray]
    sets the vertex count to [3 * L] and uploads a new buffer of exactly
    two floats per counted vertex, so a draw of [vertexCount] vertices
    stays inside the buffer. *)
Theorem quad_buffer_matches_vertex_count
    (points : list number) (this : Quad.t) (w : World) :
  points <> [] -> Quad.device this = Some the_device ->
  exists this' w' vertexData,
    Quad.setDataArray (Some points) this w = (Returned (), this', w') /\
    Quad.vertexBuffer this' = Some (length (memory w)) /\
    Quad.vertexCount this' = of_nat (3 * length points) /\
    memory w' = memory w ++ [vertexData] /\
    length vertexData = (3 * length points * 2)%nat.
Proof.
  intros Hne Hd.
  set (numPoints := ndiv (length_of points) (Fin 2)).
  set (vertexData :=
    Quad.fill points numPoints
      (Float32Array_new (nmul (nmul numPoints (Fin 6)) (Fin 2)))).
  assert (nmul numPoints (Fin 6) = of_nat (3 * length points)) as Hcount
    by apply vertexCount_any.
  assert (length vertexData = (3 * length points * 2)%nat) as Hsize.
  { subst vertexData. rewrite fill_length, Hcount, nmul_of_nat_2.
    rewrite Float32Array_new_of_nat. apply length_replicate. }
  destruct (upload_fresh vertexData w) as (_ & Hmem & _).
  eexists _, _, vertexData.
  split; [|split; [|split; [|split; [exact Hmem | exact Hsize]]]].
  - unfold Quad.setDataArray. destruct points as [|v points]; [congruence|].
    fold numPoints. fold vertexData. cbn [Quad.device]. rewrite Hd.
    reflexivity.
  - reflexivity.
  - exact Hcount.
Qed.

Lemma quad_buffer_matches_vertex_count_witness :
  exists this' w' vertexData,
    Quad.setDataArray (Some [Fin 3; Fin 4; Fin 5]) quad_ready world0
      = (Returned (), this', w') /\
    Quad.vertexCount this' = Fin 9 /\
    memory w' = [vertexData] /\ length vertexData = 18%nat.
Proof.
  destruct (quad_buffer_matches_vertex_count [Fin 3; Fin 4; Fin 5]
              quad_ready world0) as (this' & w' & v & H1 & _ & H2 & H3 & H4);
    [done | reflexivity |].
  exists this', w', v. split; [exact H1|]. split; [exact H2|].
  split; [exact H3 | exact H4].
Defined.

(** What [setDataArray] does with a non-empty array when a device is
    there. *)
Lemma quad_buffer_matches_vertex_count_aux
    (points : list number) (this : Quad.t) (w : World) :
  points <> [] -> Quad.device this = Some the_device ->
  let numPoints := ndiv (length_of points) (Fin 2) in
  exists this' w',
    Quad.setDataArray (Some points) this w = (Returned (), this', w') /\
    Quad.vertexCount this' = of_nat (3 * length points) /\
    memory w' = memory w ++
      [ Quad.fill points numPoints
          (Float32Array_new (nmul (nmul numPoints (Fin 6)) (Fin 2))) ].
Proof.
  intros Hne Hd numPoints.
  set (vertexData :=
    Quad.fill points numPoints
      (Float32Array_new (nmul (nmul numPoints (Fin 6)) (Fin 2)))).
  destruct (upload_fresh vertexData w) as (_ & Hmem & _).
  eexists _, _. split; [|split; [|exact Hmem]].
  - unfold Quad.setDataArray. destruct points as [|v points]; [congruence|].
    fold numPoints. fold vertexData. cbn [Quad.device]. rewrite Hd.
    reflexivity.
  - apply vertexCount_any.
Qed.

Lemma fill_fold_rest points rest k : forall i pre,
  length pre = (i * 12)%nat ->
  fold_left
    (fun vertexData i =>
       Quad.expand_point (typed_get points (i * 2))
         (typed_get points (i * 2 + 1)) i vertexData)
    (seq i k) (pre ++ replicate (k * 12) (Fin 0) ++ rest)
  = pre ++ concat (map (quad_of points) (seq i k)) ++ rest.
Proof.
  induction k as [|k IH]; intros i pre Hpre; [reflexivity|].
  cbn [seq fold_left map concat].
  replace (S k * 12)%nat with (12 + k * 12)%nat by lia.
  rewrite replicate_add, <- app_assoc, expand_point_app;
    [|exact Hpre|apply length_replicate].
  specialize (IH (S i) (pre ++ quad_of points i)).
  rewrite <- !app_assoc in IH. unfold quad_of at 1 3 in IH.
  unfold quad_of at 1. rewrite <- app_assoc. apply IH.
  rewrite length_app, Hpre. cbn. lia.
Qed.

(** The innermost store into [pre ++ l], at its offset into [l]. *)
Ltac store_in_tail pre :=
  match goal with
  | |- context [<[?k := ?v]> (pre ++ ?l)] =>
      rewrite (insert_app_r_alt pre l k v) by lia;
      first [ replace (k - length pre)%nat with 0%nat by lia
            | replace (k - length pre)%nat with 1%nat by lia
            | replace (k - length pre)%nat with 2%nat by lia
            | replace (k - length pre)%nat with 3%nat by lia
            | replace (k - length pre)%nat with 4%nat by lia
            | replace (k - length pre)%nat with 5%nat by lia ];
      cbn [insert list_insert]
  end.

(** The six stores that fit when only half a quad is left. *)
Lemma expand_point_half x y i pre a b c d e f :
  length pre = (i * 12)%nat ->
  Quad.expand_point x y i (pre ++ [a; b; c; d; e; f]) =
  pre ++ [x; y; x; y; x; y].
Proof.
  intros Hpre. unfold Quad.expand_point. cbn [seq fold_left].
  do 6 (store_in_tail pre).
  rewrite !list_insert_ge
    by (rewrite ?length_insert, length_app; cbn; lia).
  reflexivity.
Qed.

Lemma trip_count_odd k :
  trip_count (ndiv (of_nat (2 * k + 1)) (Fin 2)) = S k.
Proof.
  change (ndiv (of_nat (2 * k + 1)) (Fin 2))
    with (Fin (Qred (inject_Z (Z.of_nat (2 * k + 1)) / 2))).
  assert (forall i, (i < trip_count
            (Fin (Qred (inject_Z (Z.of_nat (2 * k + 1)) / 2))))%nat <->
          (i <= k)%nat) as Hspec.
  { intros i. rewrite trip_count_spec, Qred_correct.
    assert (inject_Z (Z.of_nat (2 * k + 1)) / 2 ==
            inject_Z (Z.of_nat k) + (1 # 2)) as ->.
    { rewrite Nat2Z.inj_add, Nat2Z.inj_mul, inject_Z_plus, inject_Z_mult.
      change (inject_Z (Z.of_nat 2)) with 2.
      change (inject_Z (Z.of_nat 1)) with 1. field. }
    split; intros H.
    - assert (inject_Z (Z.of_nat i) < inject_Z (Z.of_nat k + 1)) as Hlt.
      { rewrite inject_Z_plus. change (inject_Z 1) with 1. lra. }
      rewrite <- Zlt_Qlt in Hlt. lia.
    - assert (inject_Z (Z.of_nat i) <= inject_Z (Z.of_nat k)) as Hle.
      { rewrite <- Zle_Qle. lia. }
      lra. }
  pose proof (proj2 (Hspec k) (Nat.le_refl k)) as H1.
  assert (~ (S k < trip_count
            (Fin (Qred (inject_Z (Z.of_nat (2 * k + 1)) / 2))))%nat) as H2.
  { intros H%Hspec. lia. }
  lia.
Qed.

(** The vertex array [setDataArray] builds from [2 * k + 1] floats: [k]
    full quads and half a quad for the unpaired float. *)
Lemma fill_odd points k :
  length points = (2 * k + 1)%nat ->
  let numPoints := ndiv (length_of points) (Fin 2) in
  Quad.fill points numPoints
    (Float32Array_new (nmul (nmul numPoints (Fin 6)) (Fin 2)))
  = concat (map (quad_of points) (seq 0 k)) ++
    [ typed_get points (k * 2); NaN; typed_get points (k * 2); NaN;
      typed_get points (k * 2); NaN ].
Proof.
  intros Hlen numPoints. subst numPoints.
  unfold length_of. rewrite Hlen. fold (of_nat (2 * k + 1)).
  rewrite vertexCount_any, nmul_of_nat_2, Float32Array_new_of_nat.
  unfold Quad.fill. rewrite trip_count_odd.
  replace (3 * (2 * k + 1) * 2)%nat with (k * 12 + 6)%nat by lia.
  rewrite replicate_add, seq_S, fold_left_app. cbn [fold_left Nat.add].
  pose proof (fill_fold_rest points (replicate 6 (Fin 0)) k 0 [] eq_refl) as H.
  cbn [app] in H. rewrite H.
  cbn [replicate]. rewrite (expand_point_half _ _ k); cycle 1.
  { rewrite length_blocks by apply quad_of_length. by rewrite length_seq. }
  unfold typed_get at 2 4 6.
  rewrite (proj2 (lookup_ge_None points (k * 2 + 1))) by lia.
  reflexivity.
Qed.

(** X10: on an array of odd length [2 * k + 1] the last float has no partner:
    [setDataArray] still returns, counts [6 * k + 3] vertices, expands the
    first [k] points in full, and ends the buffer with three vertices
    whose [x] is the unpaired float and whose [y] is [NaN]. *)
Theorem quad_odd_length_trailing_NaN
    (points : list number) (k : nat) (this : Quad.t) (w : World) :
  length points = (2 * k + 1)%nat ->
  Quad.device this = Some the_device ->
  exists this' w' vertexData,
    Quad.setDataArray (Some points) this w = (Returned (), this', w') /\
    Quad.vertexCount this' = of_nat (6 * k + 3) /\
    memory w' = memory w ++ [vertexData] /\
    length vertexData = ((6 * k + 3) * 2)%nat /\
    (forall i j x y,
       (i < k)%nat -> (j < 6)%nat ->
       points !! (i * 2)%nat = Some x -> points !! (i * 2 + 1)%nat = Some y ->
       vertexData !! ((i * 6 + j) * 2)%nat = Some x /\
       vertexData !! ((i * 6 + j) * 2 + 1)%nat = Some y) /\
    (forall j x,
       (j < 3)%nat -> points !! (k * 2)%nat = Some x ->
       vertexData !! ((k * 6 + j) * 2)%nat = Some x /\
       vertexData !! ((k * 6 + j) * 2 + 1)%nat = Some NaN).
Proof.
  intros Hlen Hd.
  assert (points <> []) as Hne by (intros ->; cbn in Hlen; lia).
  destruct (quad_buffer_matches_vertex_count_aux points this w Hne Hd)
    as (this' & w' & H1 & H2 & H3).
  pose proof (fill_odd points k Hlen) as Hfill. cbn zeta in Hfill.
  rewrite Hfill in H3.
  set (blocks := concat (map (quad_of points) (seq 0 k))) in *.
  assert (length blocks = (k * 12)%nat) as Hblocks.
  { subst blocks. rewrite length_blocks by apply quad_of_length.
    by rewrite length_seq. }
  eexists this', w', _. split; [exact H1|].
  split; [rewrite H2; f_equal; lia|]. split; [exact H3|].
  split; [rewrite length_app, Hblocks; cbn; lia|]. split.
  - intros i j x y Hi Hj Hx Hy.
    destruct (quad_lookup x y j Hj) as [Qx Qy].
    replace ((i * 6 + j) * 2)%nat with (i * 12 + j * 2)%nat by lia.
    replace (i * 12 + j * 2 + 1)%nat with (i * 12 + (j * 2 + 1))%nat by lia.
    rewrite !lookup_app_l by (rewrite Hblocks; lia). subst blocks.
    rewrite !(lookup_blocks (quad_of points) (seq 0 k) (quad_of_length points) i i);
      try lia; try (by apply lookup_seq_lt).
    unfold quad_of, typed_get. rewrite Hx, Hy. cbn [default]. by split.
  - intros j x Hj Hx.
    rewrite !lookup_app_r by (rewrite Hblocks; lia). rewrite Hblocks.
    unfold typed_get. rewrite Hx. cbn [default].
    replace ((k * 6 + j) * 2 - k * 12)%nat with (j * 2)%nat by lia.
    replace ((k * 6 + j) * 2 + 1 - k * 12)%nat with (j * 2 + 1)%nat by lia.
    do 3 (destruct j as [|j]; [by split|]). lia.
Qed.

Lemma quad_odd_length_trailing_NaN_witness :
  exists this' w' vertexData,
    Quad.setDataArray (Some [Fin 3; Fin 4; Fin 5]) quad_ready world0
      = (Returned (), this', w') /\
    memory w' = [vertexData] /\
    vertexData !! 12%nat = Some (Fin 5) /\
    vertexData !! 13%nat = Some NaN.
Proof.
  destruct (quad_odd_length_trailing_NaN [Fin 3; Fin 4; Fin 5] 1
              quad_ready world0 eq_refl eq_refl)
    as (this' & w' & v & H1 & _ & H2 & _ & _ & H3).
  exists this', w', v. split; [exact H1|]. split; [exact H2|].
  exact (H3 0%nat (Fin 5) ltac:(lia) eq_refl).
Defined.

End QuadAnyLength.

(** ** The starfield: initialisation and the frame loop *)

Section Starfield.
Variable Math_random : nat -> Q.
Hypothesis random_range : forall k, 0 <= Math_random k < 1.

Lemma coordinate_between k :
  between (-1) 1 (nsub (nmul (Fin (Math_random k)) (Fin 2)) (Fin 1)).
Proof using random_range.
  cbn [nmul]. unfold fin at 1. cbn [nsub]. apply between_fin.
  rewrite Qred_correct. destruct (random_range k). lra.
Qed.

Lemma opacity_between k : between 0 1 (Fin (Math_random k)).
Proof using random_range.
  unfold between, betweenb. destruct (random_range k).
  apply andb_true_intro; split; apply Qle_bool_true; lra.
Qed.

Lemma place_star_step stars opacities w k :
  Sample.place_star Math_random (stars, opacities, w) k =
  (<[(2 * k + 1)%nat := nsub (nmul (Fin (Math_random (S (random_calls w))))
                                   (Fin 2)) (Fin 1)]>
     (<[(2 * k)%nat := nsub (nmul (Fin (Math_random (random_calls w)))
                                  (Fin 2)) (Fin 1)]> stars),
   <[(2 * k / 2)%nat := Fin (Math_random (S (S (random_calls w))))]> opacities,
   after_draws 3 w).
Proof. reflexivity. Qed.

(** The loop of [createStarfield] keeps the lengths of both arrays, keeps
    positions within [-1, 1] and opacities within [0, 1], and draws three
    random numbers per star. *)
Lemma place_star_fold l : forall stars opacities w,
  Forall (between (-1) 1) stars -> Forall (between 0 1) opacities ->
  let r := fold_left (Sample.place_star Math_random) l (stars, opacities, w) in
  r.2 = after_draws (3 * length l) w /\
  length r.1.1 = length stars /\ length r.1.2 = length opacities /\
  Forall (between (-1) 1) r.1.1 /\ Forall (between 0 1) r.1.2.
Proof using random_range.
  induction l as [|k l IH]; intros stars opacities w Hs Ho.
  - cbn. by destruct w.
  - cbn [fold_left]. rewrite place_star_step.
    edestruct IH as (Hw & Hl1 & Hl2 & H1 & H2); cycle 2.
    + cbn zeta. split; [|split; [|split; [|split; [exact H1 | exact H2]]]].
      * rewrite Hw. unfold after_draws. cbn. f_equal. lia.
      * by rewrite Hl1, !length_insert.
      * by rewrite Hl2, length_insert.
    + apply Forall_insert; [apply Forall_insert; [done|]|];
        apply coordinate_between.
    + apply Forall_insert; [done | apply opacity_between].
Qed.

Lemma writeBuffer_keeps buffer data w :
  submitted (writeBuffer buffer data w) = submitted w /\
  console (writeBuffer buffer data w) = console w /\
  random_calls (writeBuffer buffer data w) = random_calls w.
Proof.
  unfold writeBuffer. destruct (memory w !! buffer) as [old|]; [|done].
  by destruct (length data <=? length old)%nat.
Qed.

Lemma createStarfield_ready this w :
  Sample.device this = Some the_device ->
  let r := fold_left (Sample.place_star Math_random) (seq 0 1000)
             (replicate 2000 (Fin 0), replicate 1000 (Fin 0), w) in
  let w1 := writeBuffer (length (memory r.2)) r.1.1
              (createBuffer (length r.1.1) r.2).2 in
  let w2 := writeBuffer (length (memory w1)) r.1.2
              (createBuffer (length r.1.2) w1).2 in
  Sample.createStarfield Math_random this w =
  (Returned (),
   {| Sample.device := Sample.device this;
      Sample.context := Sample.context this;
      Sample.pipeline := Sample.pipeline this;
      Sample.vertexBuffer := Some (length (memory r.2));
      Sample.opacityBuffer := Some (length (memory w1));
      Sample.starOpacities := Some r.1.2 |},
   w2).
Proof.
  intros Hd r w1 w2. unfold Sample.createStarfield. rewrite Hd.
  change (replicate (1000 * 2) (Fin 0)) with (replicate 2000 (Fin 0)).
  subst w2 w1. fold r. by destruct r as [[stars opacities] w0].
Qed.

(** What [createStarfield] builds when there is a device. *)
Lemma createStarfield_effect this w :
  Sample.device this = Some the_device ->
  exists stars opacities w',
    Sample.createStarfield Math_random this w =
      (Returned (),
       {| Sample.device := Sample.device this;
          Sample.context := Sample.context this;
          Sample.pipeline := Sample.pipeline this;
          Sample.vertexBuffer := Some (length (memory w));
          Sample.opacityBuffer := Some (S (length (memory w)));
          Sample.starOpacities := Some opacities |},
       w') /\
    memory w' = memory w ++ [stars; opacities] /\
    length stars = 2000%nat /\ length opacities = 1000%nat /\
    Forall (between (-1) 1) stars /\ Forall (between 0 1) opacities /\
    random_calls w' = (3000 + random_calls w)%nat /\
    submitted w' = submitted w.
Proof using random_range.
  intros Hd. rewrite createStarfield_ready by exact Hd. cbn zeta.
  destruct (place_star_fold (seq 0 1000) (replicate 2000 (Fin 0))
              (replicate 1000 (Fin 0)) w) as (Hw & Hl1 & Hl2 & H1 & H2).
  { apply Forall_replicate. reflexivity. }
  { apply Forall_replicate. reflexivity. }
  cbn zeta in *.
  set (r := fold_left (Sample.place_star Math_random) (seq 0 1000)
              (replicate 2000 (Fin 0), replicate 1000 (Fin 0), w)) in *.
  rewrite length_replicate in Hl1, Hl2. rewrite length_seq in Hw.
  destruct (upload_fresh r.1.1 r.2) as (_ & Hm1 & Hs1 & _ & Hr1).
  set (w1 := writeBuffer (length (memory r.2)) r.1.1
               (createBuffer (length r.1.1) r.2).2) in *.
  destruct (upload_fresh r.1.2 w1) as (_ & Hm2 & Hs2 & _ & Hr2).
  set (w2 := writeBuffer (length (memory w1)) r.1.2
               (createBuffer (length r.1.2) w1).2) in *.
  assert (memory r.2 = memory w) as Hm0 by (by rewrite Hw).
  assert (length (memory w1) = S (length (memory w))) as Hlen1
    by (rewrite Hm1, length_app, Hm0; cbn; lia).
  exists r.1.1, r.1.2, w2. rewrite Hm0, Hlen1.
  split; [reflexivity|].
  split; [by rewrite Hm2, Hm1, Hm0, <- app_assoc|].
  split; [exact Hl1|]. split; [exact Hl2|]. split; [exact H1|].
  split; [exact H2|].
  split; [by rewrite Hr2, Hr1, Hw | by rewrite Hs2, Hs1, Hw].
Qed.

(** X11: in a browser granting GPU, adapter and context, [initialize] of the
    starfield renderer returns with the renderer ready to draw: 2000
    position floats within [-1, 1] in one new buffer, 1000 opacities
    within [0, 1] in a second new buffer that equals the opacity array,
    3000 random numbers consumed, and nothing submitted. *)
Theorem starfield_initialize_ready (nav : Navigator) (w : World) :
  gpu nav = true -> adapter nav = true -> webgpu_context nav = true ->
  exists this' w' stars opacities,
    Sample.initialize Math_random nav Sample.constructor w
      = (Returned (), this', w') /\
    twinkling this' w' /\
    Sample.vertexBuffer this' = Some (length (memory w)) /\
    Sample.opacityBuffer this' = Some (S (length (memory w))) /\
    Sample.starOpacities this' = Some opacities /\
    memory w' = memory w ++ [stars; opacities] /\
    length stars = 2000%nat /\ length opacities = 1000%nat /\
    Forall (between (-1) 1) stars /\ Forall (between 0 1) opacities /\
    random_calls w' = (3000 + random_calls w)%nat /\
    submitted w' = submitted w.
Proof using random_range.
  intros Hgpu Hadapter Hcontext.
  unfold Sample.initialize. rewrite Hgpu, Hadapter, Hcontext. cbn [negb].
  cbn [Sample.createPipeline Sample.device Sample.constructor].
  edestruct createStarfield_effect
    as (stars & opacities & w' & Hrun & Hmem & Hl1 & Hl2 & H1 & H2 & Hr & Hs);
    [|rewrite Hrun]; [reflexivity|].
  eexists _, w', stars, opacities. split; [reflexivity|]. split.
  { eexists _, _, _, opacities.
    cbn [Sample.device Sample.context Sample.pipeline Sample.vertexBuffer
           Sample.opacityBuffer Sample.starOpacities].
    repeat split; try reflexivity; [lia| |exact H2].
    rewrite Hmem, lookup_app_r by lia.
    by replace (S (length (memory w)) - length (memory w))%nat with 1%nat
      by lia. }
  cbn [Sample.vertexBuffer Sample.opacityBuffer Sample.starOpacities].
  by repeat split.
Qed.

(** What [render] computes on a renderer with all six fields set and an
    opacity buffer as long as the opacity array. *)
Lemma render_ready_effect this w p vertices alphas opacities old :
  Sample.device this = Some the_device ->
  Sample.context this = Some the_context ->
  Sample.pipeline this = Some p ->
  Sample.vertexBuffer this = Some vertices ->
  Sample.opacityBuffer this = Some alphas ->
  Sample.starOpacities this = Some opacities ->
  memory w !! alphas = Some old -> length old = length opacities ->
  exists opacities' w2,
    Sample.render Math_random this w =
      (Returned (), Sample.set_starOpacities (Some opacities') this,
       submit {| clearValue := (0, 0, 1 # 10, 1);
                 recorded := [ setPipeline p; setVertexBuffer 0 vertices;
                               setVertexBuffer 1 alphas;
                               draw (Fin 1000) 1 0 0 ] |} w2) /\
    length opacities' = length opacities /\
    (Forall (between 0 1) opacities -> Forall (between 0 1) opacities') /\
    memory w2 = <[alphas := opacities']> (memory w) /\
    submitted w2 = submitted w /\
    random_calls w2 = (1000 + random_calls w)%nat.
Proof using random_range.
  intros Hd Hc Hp Hv Ha Ho Hmem Hold.
  unfold Sample.render. rewrite Hd, Hc, Hp, Hv, Ha, Ho.
  rewrite (updateOpacities_ready Math_random this w alphas opacities Hd Ha Ho).
  cbn zeta.
  destruct (twinkle_fold Math_random 1000 0 opacities w) as (_ & Hlen & _).
  pose proof (twinkle_fold_between Math_random random_range 1000 0 opacities w)
    as Hall'.
  cbn zeta in Hlen.
  set (ops' := (fold_left (Sample.twinkle Math_random) (seq 0 1000)
                  (opacities, w)).1) in *.
  cbn [Sample.starOpacities Sample.set_starOpacities default].
  change (id ops') with ops'.
  assert (memory (writeBuffer alphas ops' (after_draws 1000 w)) =
          <[alphas := ops']> (memory w)) as Hm1.
  { apply (writeBuffer_full alphas ops' old (after_draws 1000 w));
      [exact Hmem | lia]. }
  set (w1 := writeBuffer alphas ops' (after_draws 1000 w)) in *.
  assert (memory w1 !! alphas = Some ops') as Hlook.
  { rewrite Hm1. apply list_lookup_insert_eq. by eapply lookup_lt_Some. }
  exists ops', (writeBuffer alphas ops' w1).
  split; [reflexivity|]. split; [exact Hlen|]. split; [exact Hall'|].
  split.
  { rewrite (writeBuffer_full alphas ops' ops' w1 Hlook eq_refl), Hm1.
    apply list_insert_insert_eq. }
  destruct (writeBuffer_keeps alphas ops' w1) as (-> & _ & ->).
  subst w1.
  destruct (writeBuffer_keeps alphas ops' (after_draws 1000 w))
    as (-> & _ & ->).
  split; reflexivity.
Qed.


(** A frame, as the loop sees it. *)
Lemma starfield_render_step (this : Sample.t) (w : World) :
  twinkling this w ->
  exists this' w',
    Sample.render Math_random this w = (Returned (), this', w') /\
    twinkling this' w' /\
    draw_calls w' = draw_calls w ++ [Fin 1000] /\
    length (submitted w') = (length (submitted w) + 1)%nat /\
    length (memory w') = length (memory w) /\
    random_calls w' = (1000 + random_calls w)%nat.
Proof using random_range.
  intros (p & vertices & alphas & ops & Hd & Hc & Hp & Hv & Ha & Ho & Hne
          & Hmem & Hall).
  destruct (render_ready_effect this w p vertices alphas ops ops
              Hd Hc Hp Hv Ha Ho Hmem eq_refl)
    as (ops' & w2 & Hrun & Hlen & Hall' & Hm & Hs & Hr).
  eexists _, _. split; [exact Hrun|]. split.
  { exists p, vertices, alphas, ops'.
    cbn [submit memory Sample.device Sample.context Sample.pipeline
           Sample.vertexBuffer Sample.opacityBuffer Sample.starOpacities
           Sample.set_starOpacities].
    rewrite Hm. repeat split; try assumption; [|by apply Hall'].
    apply list_lookup_insert_eq. by eapply lookup_lt_Some. }
  rewrite draw_calls_submit.
  cbn [submit memory submitted random_calls].
  rewrite Hm, Hs, length_app, length_insert.
  unfold draw_calls. rewrite Hs. by repeat split.
Qed.

(** X13: the frame loop of a ready renderer never throws and never allocates:
    after [n] frames there are [n] more submissions, each drawing 1000
    vertices, the renderer is still ready, and the opacities are still
    within [0, 1]. *)
Theorem starfield_frames (this : Sample.t) (w : World) (n : nat) :
  twinkling this w ->
  exists this' w',
    frames Math_random n this w = (Returned (), this', w') /\
    twinkling this' w' /\
    draw_calls w' = draw_calls w ++ replicate n (Fin 1000) /\
    length (submitted w') = (length (submitted w) + n)%nat /\
    length (memory w') = length (memory w) /\
    random_calls w' = (1000 * n + random_calls w)%nat.
Proof using random_range.
  revert this w. induction n as [|n IH]; intros this w Hready.
  - exists this, w. cbn. rewrite app_nil_r. repeat split; try done; lia.
  - destruct (starfield_render_step this w Hready)
      as (this1 & w1 & Hrun & Hready1 & Hdraw & Hsub & Hmem & Hrand).
    destruct (IH this1 w1 Hready1)
      as (this' & w' & Hloop & Hready' & Hdraw' & Hsub' & Hmem' & Hrand').
    exists this', w'. cbn [frames]. rewrite Hrun.
    split; [exact Hloop|]. split; [exact Hready'|].
    split; [rewrite Hdraw', Hdraw, <- app_assoc; reflexivity|].
    split; [lia|]. split; [lia|]. lia.
Qed.

End Starfield.

Lemma starfield_twinkling : twinkling starfield.1 starfield.2.
Proof.
  unfold starfield, Sample.initialize.
  cbn [gpu adapter webgpu_context full_support negb].
  cbn [Sample.createPipeline Sample.device Sample.constructor].
  edestruct (createStarfield_effect (fun _ => 1 # 2) half_in_range)
    as (stars & opacities & w' & Hrun & Hmem & _ & _ & _ & H2 & _);
    [|rewrite Hrun]; [reflexivity|].
  cbn [fst snd]. eexists _, _, _, opacities.
  cbn [Sample.device Sample.context Sample.pipeline Sample.vertexBuffer
         Sample.opacityBuffer Sample.starOpacities].
  repeat split; try reflexivity; [cbn; lia| |exact H2].
  by rewrite Hmem.
Qed.

Lemma starfield_initialize_ready_witness :
  exists this' w' stars opacities,
    Sample.initialize (fun _ => 1 # 2) full_support Sample.constructor world0
      = (Returned (), this', w') /\
    memory w' = [stars; opacities] /\
    length stars = 2000%nat /\ length opacities = 1000%nat.
Proof.
  destruct (starfield_initialize_ready (fun _ => 1 # 2) half_in_range
              full_support world0 eq_refl eq_refl eq_refl)
    as (this' & w' & stars & opacities & H1 & _ & _ & _ & _ & H2 & H3 & H4 & _).
  exists this', w', stars, opacities. by repeat split.
Defined.


Lemma starfield_frames_witness :
  exists this' w',
    frames (fun _ => 1 # 2) 3 starfield.1 starfield.2
      = (Returned (), this', w') /\
    draw_calls w' = [Fin 1000; Fin 1000; Fin 1000].
Proof.
  destruct (starfield_frames (fun _ => 1 # 2) half_in_range
              starfield.1 starfield.2 3 starfield_twinkling)
    as (this' & w' & H1 & _ & H2 & _).
  exists this', w'. split; [exact H1|]. rewrite H2.
  vm_compute. reflexivity.
Defined.

(** X14: a renderer whose [initialize] fails can still be handed to the frame
    loop: whichever check fails (no GPU, no adapter, no canvas context),
    [initialize] throws the matching error without allocating, drawing or
    consuming a random number, and every later [render] is a no-op. *)
Theorem starfield_initialize_failure
    (Math_random : nat -> Q) (nav : Navigator) (w : World) :
  gpu nav && adapter nav && webgpu_context nav = false ->
  exists message this',
    Sample.initialize Math_random nav Sample.constructor w
      = (Threw (Error message), this', w) /\
    message =
      (if negb (gpu nav) then "WebGPU not supported"
       else if negb (adapter nav) then "No GPU adapter found"
       else "Could not get WebGPU context") /\
    Sample.device this' =
      (if gpu nav && adapter nav then Some the_device else None) /\
    Sample.vertexBuffer this' = None /\ Sample.opacityBuffer this' = None /\
    forall w2, Sample.render Math_random this' w2 = (Returned (), this', w2).
Proof.
  intros Hnav. unfold Sample.initialize.
  destruct (gpu nav), (adapter nav), (webgpu_context nav);
    try discriminate Hnav; cbn [negb andb];
    eexists _, _; repeat split; reflexivity.
Qed.

Lemma starfield_initialize_failure_witness :
  exists this',
    Sample.initialize (fun _ => 1 # 2) no_context Sample.constructor world0
      = (Threw (Error "Could not get WebGPU context"), this', world0) /\
    Sample.render (fun _ => 1 # 2) this' world0 = (Returned (), this', world0).
Proof.
  destruct (starfield_initialize_failure (fun _ => 1 # 2) no_context world0
              eq_refl) as (message & this' & H1 & -> & _ & _ & _ & H2).
  exists this'. split; [exact H1 | apply H2].
Defined.

(** ** The first point renderer: [setData] *)

Section PointRendererData.

Lemma forEach_NaN ps : forall i pre,
  length pre = (i * 2)%nat ->
  PointRenderer.forEach ps i (pre ++ replicate (length ps * 2) (Fin 0)) =
  pre ++ replicate (length ps * 2) NaN.
Proof.
  induction ps as [|p ps IH]; intros i pre Hpre; [reflexivity|].
  cbn [PointRenderer.forEach length Nat.mul Nat.add replicate].
  change (Vec2_get (position p) "0") with (@None number).
  change (Vec2_get (position p) "1") with (@None number).
  cbn [default].
  rewrite insert_app_r_alt by lia.
  replace (i * 2 - length pre)%nat with 0%nat by lia. cbn [insert list_insert].
  rewrite insert_app_r_alt by lia.
  replace (i * 2 + 1 - length pre)%nat with 1%nat by lia.
  cbn [insert list_insert].
  specialize (IH (S i) (pre ++ [NaN; NaN])).
  rewrite <- !app_assoc in IH. cbn [app] in IH. apply IH.
  rewrite length_app. cbn. lia.
Qed.

(** X15: [setData] reads [point.position[0]] and [point.position[1]], which a
    [Vec2] does not have: whatever the coordinates of the points, the
    buffer it uploads holds two [NaN] per point, while [pointData] keeps
    the points themselves.  Without a device it throws a [TypeError]
    after [pointData] was replaced. *)
Theorem setData_uploads_only_NaN
    (points : list Point) (this : PointRenderer.t) (w : World) :
  (PointRenderer.device this = Some the_device ->
   exists this' w',
     PointRenderer.setData points this w = (Returned (), this', w') /\
     PointRenderer.pointData this' = points /\
     PointRenderer.vertexBuffer this' = Some (length (memory w)) /\
     memory w' = memory w ++ [replicate (length points * 2) NaN]) /\
  (PointRenderer.device this = None ->
   exists this',
     PointRenderer.setData points this w = (Threw TypeError, this', w) /\
     PointRenderer.pointData this' = points /\
     PointRenderer.vertexBuffer this' = PointRenderer.vertexBuffer this).
Proof.
  pose proof (forEach_NaN points 0 [] eq_refl) as Hfill. cbn [app] in Hfill.
  unfold PointRenderer.setData. cbn [PointRenderer.device]. rewrite Hfill.
  split; intros Hd; rewrite Hd.
  - destruct (upload_fresh (replicate (length points * 2) NaN) w)
      as (_ & Hmem & _).
    eexists _, _. split; [reflexivity|]. split; [reflexivity|].
    split; [reflexivity | exact Hmem].
  - eexists. by repeat split.
Qed.

Lemma setData_uploads_only_NaN_witness :
  exists this' w',
    PointRenderer.setData
      [ {| position := Vec2.new (Fin 3) (Fin 4) |} ]
      (PointRenderer.initialize full_support PointRenderer.constructor).2 world0
      = (Returned (), this', w') /\
    memory w' = [[NaN; NaN]].
Proof.
  destruct (setData_uploads_only_NaN
              [ {| position := Vec2.new (Fin 3) (Fin 4) |} ]
              (PointRenderer.initialize full_support PointRenderer.constructor).2
              world0) as [H _].
  destruct (H eq_refl) as (this' & w' & H1 & _ & _ & H2).
  exists this', w'. split; [exact H1 | exact H2].
Defined.

End PointRendererData.

(** ** The twinkling renderer *)

Section Twinkling2.

Lemma startTwinkling_owns interval this tm :
  owns_timers this tm ->
  let r := Twinkle.startTwinkling interval this tm in
  owns_timers r.1 r.2 /\
  Twinkle.intervalId r.1 = Some (next_timer tm) /\
  active r.2 = {[next_timer tm := interval]}.
Proof.
  intros [Hnext Hown]. unfold Twinkle.startTwinkling.
  assert (active
            match Twinkle.intervalId this with
            | Some id => if (id =? 0)%nat then tm else clearInterval id tm
            | None => tm
            end = ∅ /\
          next_timer
            match Twinkle.intervalId this with
            | Some id => if (id =? 0)%nat then tm else clearInterval id tm
            | None => tm
            end = next_timer tm) as [Hcleared Hkept].
  { destruct (Twinkle.intervalId this) as [id|]; [|done].
    destruct Hown as [Hid [old Hactive]].
    rewrite (proj2 (Nat.eqb_neq id 0)) by lia. cbn.
    by rewrite Hactive, delete_singleton_eq. }
  cbn. rewrite Hcleared, Hkept, insert_empty.
  split; [|done]. split; [cbn; lia|]. cbn.
  split; [lia | by eexists].
Qed.

Lemma start_all_owns intervals : forall this tm,
  owns_timers this tm -> owns_timers (start_all intervals this tm).1
                                     (start_all intervals this tm).2.
Proof.
  unfold start_all. induction intervals as [|interval l IH]; intros this tm H;
    [exact H|].
  cbn [fold_left fst snd].
  destruct (startTwinkling_owns interval this tm H) as (H' & _).
  cbn zeta in H'.
  destruct (Twinkle.startTwinkling interval this tm) as [this1 tm1].
  by apply IH.
Qed.

Lemma start_all_next intervals : forall this tm,
  next_timer (start_all intervals this tm).2 =
  (length intervals + next_timer tm)%nat.
Proof.
  unfold start_all. induction intervals as [|interval l IH]; intros this tm;
    [reflexivity|].
  cbn [fold_left length fst snd].
  specialize (IH (Twinkle.startTwinkling interval this tm).1
                 (Twinkle.startTwinkling interval this tm).2).
  destruct (Twinkle.startTwinkling interval this tm) as [this1 tm1] eqn:E.
  cbn [fst snd] in IH. rewrite IH.
  assert (next_timer tm1 = S (next_timer tm)) as ->; [|lia].
  unfold Twinkle.startTwinkling in E. cbn in E.
  injection E as _ <-. cbn.
  destruct (Twinkle.intervalId this) as [id|]; [|done].
  by destruct (id =? 0)%nat.
Qed.

(** X16: however often [startTwinkling] is called on a new renderer, exactly
    one interval timer is active afterwards: the one whose handle is in
    [intervalId], running at the interval given last.  Every earlier
    timer was cleared. *)
Theorem startTwinkling_keeps_one_timer
    (intervals : list number) (last : number) :
  let r := start_all (intervals ++ [last]) Twinkle.constructor timers0 in
  exists id,
    Twinkle.intervalId r.1 = Some id /\
    id = S (length intervals) /\
    active r.2 = {[id := last]} /\
    size (active r.2) = 1%nat.
Proof.
  cbn zeta. unfold start_all. rewrite fold_left_app. cbn [fold_left].
  assert (owns_timers Twinkle.constructor timers0) as H0
    by (split; [cbn; lia | reflexivity]).
  pose proof (start_all_owns intervals _ _ H0) as Hown.
  pose proof (start_all_next intervals Twinkle.constructor timers0) as Hnext.
  change (next_timer timers0) with 1%nat in Hnext.
  replace (length intervals + 1)%nat with (S (length intervals)) in Hnext
    by lia.
  unfold start_all in Hown, Hnext.
  destruct (startTwinkling_owns last _ _ Hown) as (_ & Hid & Hactive).
  cbn zeta in Hid, Hactive.
  exists (S (length intervals)). rewrite Hid, Hactive, Hnext.
  split; [reflexivity|]. split; [reflexivity|]. split; [reflexivity|].
  apply map_size_singleton.
Qed.

End Twinkling2.

Section Flicker.
Variable Math_random : nat -> Q.

Lemma flicker_step opacities w i :
  Twinkle.flicker Math_random (opacities, w) i =
  (<[i := Fin (Math_random (random_calls w))]> opacities, after_draws 1 w).
Proof. reflexivity. Qed.

Lemma flicker_fold n : forall s opacities w,
  let r := fold_left (Twinkle.flicker Math_random) (seq s n) (opacities, w) in
  r.2 = after_draws n w /\
  length r.1 = length opacities /\
  (forall i, (i < s \/ s + n <= i)%nat -> r.1 !! i = opacities !! i) /\
  (forall i, (s <= i < s + n)%nat -> (i < length opacities)%nat ->
     r.1 !! i = Some (Fin (Math_random (random_calls w + (i - s))))).
Proof.
  induction n as [|n IH]; intros s opacities w.
  - cbn. repeat split; try done. by destruct w. intros; lia.
  - cbn [seq fold_left]. rewrite flicker_step.
    specialize (IH (S s) (<[s := Fin (Math_random (random_calls w))]> opacities)
                   (after_draws 1 w)).
    cbn zeta in IH |- *. destruct IH as (Hw & Hlen & Hout & Hin).
    split; [|split; [|split]].
    + rewrite Hw. unfold after_draws. cbn. f_equal. lia.
    + by rewrite Hlen, length_insert.
    + intros i Hi. rewrite Hout by lia. apply list_lookup_insert_ne. lia.
    + intros i Hi Hlt. destruct (decide (i = s)) as [->|Hne].
      * rewrite Hout by lia.
        replace (s - s)%nat with 0%nat by lia. rewrite Nat.add_0_r.
        by apply list_lookup_insert_eq.
      * rewrite Hin; [|lia|by rewrite length_insert].
        replace (random_calls (after_draws 1 w) + (i - S s))%nat
          with (random_calls w + (i - s))%nat; [reflexivity | cbn; lia].
Qed.

(** X17: a frame of the twinkling renderer, once device, context, pipeline and
    vertex buffer exist: every opacity is replaced by a fresh random
    number and one pass drawing 1000 vertices from the vertex buffer is
    submitted, but the device memory is left as it was: the new opacities
    are never uploaded. *)
Theorem twinkle_render_never_uploads
    (this : Twinkle.t) (w : World) (p : GPURenderPipeline)
    (vertices : GPUBuffer) (opacities : list number) :
  Twinkle.device this = Some the_device ->
  Twinkle.context this = Some the_context ->
  Twinkle.pipeline this = Some p ->
  Twinkle.vertexBuffer this = Some vertices ->
  Twinkle.starOpacities this = Some opacities ->
  exists this' w' opacities',
    Twinkle.render Math_random this w = (Returned (), this', w') /\
    Twinkle.starOpacities this' = Some opacities' /\
    length opacities' = length opacities /\
    (forall i, (i < length opacities)%nat ->
       opacities' !! i = Some (Fin (Math_random (random_calls w + i)))) /\
    memory w' = memory w /\
    random_calls w' = (length opacities + random_calls w)%nat /\
    submitted w' =
      submitted w ++
      [ {| clearValue := (0, 0, 1 # 10, 1);
           recorded := [ setPipeline p; setVertexBuffer 0 vertices;
                         draw (Fin 1000) 1 0 0 ] |} ].
Proof.
  intros Hd Hc Hp Hv Ho. unfold Twinkle.render. rewrite Hd, Hc, Hp, Hv, Ho.
  destruct (flicker_fold (length opacities) 0 opacities w)
    as (Hw & Hlen & _ & Hin).
  cbn zeta in *.
  destruct (fold_left (Twinkle.flicker Math_random)
              (seq 0 (length opacities)) (opacities, w)) as [ops' w1].
  cbn [fst snd] in *. subst w1.
  eexists _, _, ops'. split; [reflexivity|]. split; [reflexivity|].
  split; [exact Hlen|]. split.
  - intros i Hi. rewrite Hin by lia. by rewrite Nat.sub_0_r.
  - by repeat split.
Qed.

End Flicker.

Lemma twinkle_render_never_uploads_witness :
  exists this' w',
    Twinkle.render (fun _ => 1 # 2) three_stars world0 = (Returned (), this', w') /\
    Twinkle.starOpacities this' = Some [Fin (1 # 2); Fin (1 # 2); Fin (1 # 2)] /\
    memory w' = [].
Proof.
  destruct (twinkle_render_never_uploads (fun _ => 1 # 2) three_stars world0
              _ _ _ eq_refl eq_refl eq_refl eq_refl eq_refl)
    as (this' & w' & ops' & H1 & H2 & _ & _ & H3 & _).
  exists this', w'. split; [exact H1|]. split; [|exact H3].
  replace this' with (Twinkle.render (fun _ => 1 # 2) three_stars world0).1.2
    by (by rewrite H1).
  vm_compute. reflexivity.
Defined.
